(** * BarakahBoost: scoring pipeline

    A shallow embedding of [utils/scoring.py], [utils/validation.py],
    [scripts/process_barakah.py], [scripts/calculate_barakah.py] and
    [scripts/barakah_model.py], and the properties of the daily score
    pipeline proved over it.

    Numbers.  Python [int] counts are [Z].  Python [float] values, and the
    numeric entries of the JSON configuration, are idealised as real numbers
    [R]: every arithmetic operation is exact, there is no rounding, no
    infinity and no NaN.  Statements about equality or order of scores are
    statements about this exact arithmetic.  Where a property turns on the
    rounding of a [float], or on the conversion of an [int] to a [float],
    the function concerned is embedded a second time over binary64 floats
    in [Binary64], and [Range] names the magnitudes within which the exact
    model and the code agree on what is returned and what is raised.

    Exceptions.  A Python function that can raise returns [result A]; the
    exception classes that the code can raise are the constructors of [exn].

    Dictionaries are association lists in insertion order, which is the
    iteration order of a Python [dict]. *)

From Stdlib Require Import Floats.
From Stdlib Require Import Reals Lra Lia ZArith List String Ascii Bool.
From Stdlib Require Import Permutation Sorted.
Import ListNotations.

Set Warnings "-register-all".
Set Warnings "-inexact-float".

Open Scope string_scope.
Open Scope R_scope.

(** ** The Python runtime fragment the code relies on *)

Module Py.

Inductive exn : Type :=
| ZeroDivisionError
| ValueError
| TypeError
| AttributeError
| KeyError (key : string).

Inductive result (A : Type) : Type :=
| Ok (a : A)
| Raise (e : exn).

Arguments Ok {A} a.
Arguments Raise {A} e.

Definition bind {A B : Type} (m : result A) (k : A -> result B) : result B :=
  match m with
  | Ok a => k a
  | Raise e => Raise e
  end.

Definition returns {A : Type} (m : result A) : Prop :=
  exists a, m = Ok a.

(** [a / b] on Python numbers. *)
Definition truediv (a b : R) : result R :=
  if Req_dec_T b 0 then Raise ZeroDivisionError else Ok (a / b).

(** [math.log(x, base)]: the quotient of the two natural logarithms; a
    non-positive argument or base is a [ValueError], base 1 divides by
    [log(1) = 0.0]. *)
Definition math_log (x base : R) : result R :=
  if Rle_dec x 0 then Raise ValueError
  else if Rle_dec base 0 then Raise ValueError
  else if Req_dec_T base 1 then Raise ZeroDivisionError
  else Ok (ln x / ln base).

(** [sum(xs)] over reals. *)
Definition sum (xs : list R) : R := fold_left Rplus xs 0.

(** A dictionary with string keys. *)
Definition dict (V : Type) : Type := list (string * V).

(** [d.get(k)], first binding of [k]. *)
Fixpoint get {V : Type} (d : dict V) (k : string) : option V :=
  match d with
  | [] => None
  | (k', v) :: d' => if String.eqb k' k then Some v else get d' k
  end.

(** [d.get(k, default)]. *)
Definition get_default {V : Type} (d : dict V) (k : string) (default : V) : V :=
  match get d k with
  | Some v => v
  | None => default
  end.

(** [k in xs] for a list of strings. *)
Definition contains (xs : list string) (k : string) : bool :=
  existsb (String.eqb k) xs.

(** JSON values, as [json.load] returns them for the configuration file. *)
Inductive value : Type :=
| VNum (x : R)
| VBool (b : bool)
| VStr (s : string)
| VList (xs : list string)
| VDict (d : list (string * value)).

(** [v[k]]: subscripting a dictionary raises [KeyError] on a missing key;
    subscripting a number or a boolean is a [TypeError]. *)
Definition getitem (v : value) (k : string) : result value :=
  match v with
  | VDict d =>
      match get d k with
      | Some x => Ok x
      | None => Raise (KeyError k)
      end
  | _ => Raise TypeError
  end.

(** Use of a configuration entry as a number (in arithmetic or [float(..)]). *)
Definition as_num (v : value) : result R :=
  match v with
  | VNum x => Ok x
  | VBool b => Ok (if b then 1 else 0)
  | _ => Raise TypeError
  end.

(** Truth value of a configuration entry ([if log_scale:]). *)
Definition truthy (v : value) : bool :=
  match v with
  | VNum x => if Req_dec_T x 0 then false else true
  | VBool b => b
  | VStr s => negb (String.eqb s "")
  | VList xs => match xs with [] => false | _ => true end
  | VDict d => match d with [] => false | _ => true end
  end.

End Py.

Import Py.

Notation "x <- m ;; k" := (bind m (fun x => k))
  (at level 61, m at next level, right associativity).

(** ** utils/validation.py *)

Module Validation.

Definition PRAYERS : list string := ["Fajr"; "Dhuhr"; "Asr"; "Maghrib"; "Isha"].

(** [validate_prayers]: one 0/1 flag per canonical prayer, a missing key
    counting as [False]. *)
Definition validate_prayers (p : dict bool) : dict Z :=
  map (fun name => (name, if get_default p name false then 1%Z else 0%Z)) PRAYERS.

(** [clean_outcomes] on ratings that are already integers: absent or [None]
    ratings are dropped, the others clamped to 1..5. *)
Definition clean_outcomes (o : dict (option Z)) : dict Z :=
  flat_map
    (fun k =>
       match get_default o k None with
       | None => []
       | Some v => [(k, Z.max 1 (Z.min 5 v))]
       end)
    ["clarity"; "focus"; "calm"; "productivity"].

End Validation.

(** ** utils/scoring.py *)

Module Scoring.

(** One recitation item [{"surah": ..., "ayahs": ...}]; [None] is an absent
    key. *)
Record Recitation : Type := {
  surah : option string;
  ayahs : option Z
}.

(** The configuration section handed to [score_screen_time]; [None] is an
    absent key. *)
Record ScreenCfg : Type := {
  productive_apps : option (list string);
  distracting_apps : option (list string);
  max_daily_minutes : option R
}.

Definition minmax (value min_v max_v : R) : R :=
  if Rle_dec max_v min_v then 0
  else
    let v := (value - min_v) / (max_v - min_v) in
    Rmax 0 (Rmin 1 v) * 100.

Definition inverse_minmax (value min_v max_v : R) : R :=
  100 - minmax value min_v max_v.

Definition score_prayer (prayers : dict Z) : result R :=
  match prayers with
  | [] => Ok 0
  | _ =>
      let total := IZR (Z.of_nat (List.length prayers)) in
      let done := IZR (fold_left Z.add (map snd prayers) 0%Z) in
      q <- truediv done total ;;
      Ok (q * 100)
  end.

Section WithReference.

(** [data/reference/surah_meta.py] is not part of the sources: the table
    [NAME_TO_AYAH] (surah name to its number of ayahs) is a parameter. *)
Variable NAME_TO_AYAH : string -> option Z.

(** [NAME_TO_AYAH.get(sname, 0)]; an item without a surah name looks up
    [None], which is no key of the table. *)
Definition surah_total (sname : option string) : Z :=
  match sname with
  | Some s => match NAME_TO_AYAH s with Some n => n | None => 0%Z end
  | None => 0%Z
  end.

(** The ayahs credited to one item by the loop body of [score_quran]. *)
Definition ayat_of (r : Recitation) : Z :=
  let ayat := match ayahs r with Some a => a | None => 0%Z end in
  if Z.eqb ayat 0 then surah_total (surah r) else ayat.

Definition score_quran (recitations : list Recitation)
    (base_points_per_ayah max_daily_points : R) : result R :=
  match recitations with
  | [] => Ok 0
  | _ =>
      let pts :=
        fold_left (fun pts r => pts + IZR (ayat_of r) * base_points_per_ayah)
                  recitations 0 in
      q <- truediv pts max_daily_points ;;
      Ok (Rmin 100 (q * 100))
  end.

End WithReference.

Definition score_dhikr (total_reps : Z)
    (points_per_repetition max_daily_points : R) : result R :=
  let pts := IZR total_reps * points_per_repetition in
  q <- truediv pts max_daily_points ;;
  Ok (Rmin 100 (q * 100)).

Definition score_sadaqah (amount : R) (log_scale : bool) (log_base : R)
    (max_daily_points : R) : result R :=
  let amount := Rmax 0 amount in
  if Rle_dec amount 0 then Ok 0
  else
    val <- (if log_scale then math_log (amount + 1) log_base else Ok amount) ;;
    den <- (if log_scale then math_log (1000 + 1) log_base else Ok 1000) ;;
    q <- truediv val den ;;
    Ok (Rmin 100 (q * 100)).

Section WithClock.

(** [_to_time] is [datetime.strptime(tstr, "%H:%M").time()]: the library
    parser is a parameter, giving the minutes since midnight, or [None]
    where it raises. *)
Variable _to_time : string -> option nat.

(** The [try] block of [score_sleep]: any exception leaves the bonus at 0. *)
Definition bedtime_bonus (bedtime : option string) (bedtime_bonus_before : string) : R :=
  match bedtime with
  | None => 0
  | Some b =>
      if String.eqb b "" then 0
      else
        match _to_time b with
        | None => 0
        | Some t =>
            match _to_time bedtime_bonus_before with
            | None => 0
            | Some limit => if Nat.leb t limit then 10 else 0
            end
        end
  end.

Definition score_sleep (hours : option R) (bedtime : option string)
    (ideal_min ideal_max : R) (bedtime_bonus_before : string)
    (max_daily_points : R) : result R :=
  let core :=
    match hours with
    | None => 0
    | Some h =>
        if Rlt_dec h ideal_min then minmax h (ideal_min - 3) ideal_min
        else if Rlt_dec ideal_max h then inverse_minmax h ideal_max (ideal_max + 3)
        else 100
    end in
  let bonus := bedtime_bonus bedtime bedtime_bonus_before in
  Ok (Rmin 100 (Rmax 0 core + bonus)).

End WithClock.

(** [sum(m for a, m in app_minutes.items() if a in apps)]. *)
Definition minutes_in (apps : list string) (app_minutes : dict R) : R :=
  Py.sum (map snd (filter (fun am => contains apps (fst am)) app_minutes)).

Definition score_screen_time (app_minutes : dict R) (cfg : ScreenCfg) : result R :=
  match app_minutes with
  | [] => Ok 50
  | _ =>
      match productive_apps cfg with
      | None => Raise (KeyError "productive_apps")
      | Some pa =>
          let prod := minutes_in pa app_minutes in
          match distracting_apps cfg with
          | None => Raise (KeyError "distracting_apps")
          | Some da =>
              let dist := minutes_in da app_minutes in
              let total := Rmax (prod + dist) 1 in
              q <- truediv prod total ;;
              let ratio := q in
              match max_daily_minutes cfg with
              | None => Raise (KeyError "max_daily_minutes")
              | Some mdm =>
                  d <- truediv dist (Rmax 1 mdm) ;;
                  let dist_penalty := 1 - Rmin 1 d in
                  let combined := 0.6 * ratio + 0.4 * dist_penalty in
                  Ok (Rmax 0 (Rmin 1 combined) * 100)
              end
          end
      end
  end.

Definition score_other (good_count bad_count : Z) (good_points bad_points : R) : result R :=
  let pos := IZR good_count * good_points in
  let neg := IZR bad_count * bad_points in
  let raw := pos - neg in
  Ok (Rmax 0 (Rmin 100 ((raw + 100) / 200 * 100))).

Definition weighted_baraka_score (components weights : dict R) : result R :=
  let s := Py.sum (map snd weights) in
  let sw := if Req_dec_T s 0 then 1 else s in
  Ok (Py.sum (map (fun kw => get_default components (fst kw) 0 * (snd kw / sw)) weights)).

End Scoring.

(** ** numpy's index sort of kind "quicksort"

    [DataFrame.sort_values("date")] sorts with [kind="quicksort"], the
    default, and pandas hands a column of Python strings to numpy's
    [argsort] of that kind: an introsort over the index array [tosort]
    (median of three, partition with the pivot parked at [pr - 1],
    insertion sort for runs of at most 17 elements, heap sort once the
    depth budget is spent).  The library documents this kind as not
    stable.  Positions are [Z] as the C pointers [pl], [pr] can step one
    below the run. *)

Module Numpy.

Local Open Scope Z_scope.

Section Keys.

Variable v : list string.

(** [cmp(v + a, v + b) < 0] on Python strings: lexicographic order. *)
Definition less (a b : nat) : bool :=
  String.ltb (nth a v "") (nth b v "").

Definition at_ (t : list nat) (p : Z) : nat := nth (Z.to_nat p) t 0%nat.

Fixpoint set_nth (t : list nat) (i : nat) (x : nat) : list nat :=
  match t, i with
  | [], _ => []
  | _ :: t', O => x :: t'
  | y :: t', S i' => y :: set_nth t' i' x
  end.

Definition put (t : list nat) (p : Z) (x : nat) : list nat :=
  set_nth t (Z.to_nat p) x.

Definition INTP_SWAP (t : list nat) (p q : Z) : list nat :=
  put (put t p (at_ t q)) q (at_ t p).

Definition swap_if_less (t : list nat) (p q : Z) : list nat :=
  if less (at_ t p) (at_ t q) then INTP_SWAP t p q else t.

(** [do { ++pi; } while (v[*pi] < vp)], entered with [pi] already
    incremented. *)
Fixpoint scan_up (fuel : nat) (t : list nat) (vp : nat) (pi : Z) : Z :=
  match fuel with
  | O => pi
  | S f => if less (at_ t pi) vp then scan_up f t vp (pi + 1) else pi
  end.

(** [do { --pj; } while (vp < v[*pj])], entered with [pj] already
    decremented. *)
Fixpoint scan_down (fuel : nat) (t : list nat) (vp : nat) (pj : Z) : Z :=
  match fuel with
  | O => pj
  | S f => if less vp (at_ t pj) then scan_down f t vp (pj - 1) else pj
  end.

(** The [for (;;)] loop of the partition; gives the array and [pi]. *)
Fixpoint partition_loop (fuel : nat) (t : list nat) (vp : nat) (pi pj : Z)
  : option (list nat * Z) :=
  match fuel with
  | O => None
  | S f =>
      let pi := scan_up (List.length t) t vp (pi + 1) in
      let pj := scan_down (List.length t) t vp (pj - 1) in
      if (pi >=? pj)%Z then Some (t, pi)
      else partition_loop f (INTP_SWAP t pi pj) vp pi pj
  end.

(** One pass of the body of [while ((pr - pl) > SMALL_QUICKSORT)], up to the
    final swap that puts the pivot at [pi]. *)
Definition partition (t : list nat) (pl pr : Z) : option (list nat * Z) :=
  let pm := (pl + Z.shiftr (pr - pl) 1)%Z in
  let t := swap_if_less t pm pl in
  let t := swap_if_less t pr pm in
  let t := swap_if_less t pm pl in
  let vp := at_ t pm in
  let pj := (pr - 1)%Z in
  let t := INTP_SWAP t pm pj in
  match partition_loop (List.length t) t vp pl pj with
  | None => None
  | Some (t, pi) => Some (INTP_SWAP t pi (pr - 1), pi)
  end.

(** The inner [while] of the insertion sort: shift larger entries right. *)
Fixpoint shift_right (fuel : nat) (t : list nat) (vi : nat) (pl pj : Z)
  : list nat * Z :=
  match fuel with
  | O => (t, pj)
  | S f =>
      if ((pj >? pl)%Z && less vi (at_ t (pj - 1)))%bool
      then shift_right f (put t pj (at_ t (pj - 1))) vi pl (pj - 1)
      else (t, pj)
  end.

(** [for (pi = pl + 1; pi <= pr; ++pi)], with [count] iterations left. *)
Fixpoint insertion_sort (count : nat) (t : list nat) (pl pi : Z) : list nat :=
  match count with
  | O => t
  | S c =>
      let vi := at_ t pi in
      let '(t, pj) := shift_right (List.length t) t vi pl pi in
      insertion_sort c (put t pj vi) pl (pi + 1)
  end.

(** Heap sort of the run of [n] entries starting at [pl]; [a[i]] is the
    entry at [pl + i - 1]. *)
Definition a_ (t : list nat) (pl i : Z) : nat := at_ t (pl + i - 1).

Fixpoint sift (fuel : nat) (t : list nat) (pl : Z) (tmp : nat) (i j n : Z)
  : list nat :=
  match fuel with
  | O => put t (pl + i - 1) tmp
  | S f =>
      if (j <=? n)%Z then
        let j := if ((j <? n)%Z && less (a_ t pl j) (a_ t pl (j + 1)))%bool
                 then (j + 1)%Z else j in
        if less tmp (a_ t pl j)
        then sift f (put t (pl + i - 1) (a_ t pl j)) pl tmp j (j + j) n
        else put t (pl + i - 1) tmp
      else put t (pl + i - 1) tmp
  end.

Fixpoint heapify (count : nat) (t : list nat) (pl l n : Z) : list nat :=
  match count with
  | O => t
  | S c =>
      if (l >? 0)%Z
      then heapify c (sift (List.length t) t pl (a_ t pl l) l (Z.shiftl l 1) n) pl (l - 1) n
      else t
  end.

Fixpoint sort_down (count : nat) (t : list nat) (pl n : Z) : list nat :=
  match count with
  | O => t
  | S c =>
      if (n >? 1)%Z then
        let tmp := a_ t pl n in
        let t := put t (pl + n - 1) (a_ t pl 1) in
        let n := (n - 1)%Z in
        sort_down c (sift (List.length t) t pl tmp 1 2 n) pl n
      else t
  end.

Definition aheapsort (t : list nat) (pl n : Z) : list nat :=
  let t := heapify (Z.to_nat n) t pl (Z.shiftr n 1) n in
  sort_down (Z.to_nat n) t pl n.

Definition SMALL_QUICKSORT : Z := 16.

(** The outer [while (1)].  [popped] tells that the run [pl..pr] was just
    taken from the stack (or is the whole array), which is where the depth
    budget is tested. *)
Fixpoint aquicksort_loop (fuel : nat) (t : list nat) (pl pr : Z)
    (stack : list (Z * Z * Z)) (cdepth : Z) (popped : bool)
  : option (list nat) :=
  match fuel with
  | O => None
  | S f =>
      let pop (t : list nat) :=
        match stack with
        | [] => Some t
        | (pl', pr', d') :: stack' => aquicksort_loop f t pl' pr' stack' d' true
        end in
      if (popped && (cdepth <? 0)%Z)%bool then
        pop (aheapsort t pl (pr - pl + 1))
      else if (pr - pl >? SMALL_QUICKSORT)%Z then
        match partition t pl pr with
        | None => None
        | Some (t, pi) =>
            let cdepth := (cdepth - 1)%Z in
            if (pi - pl <? pr - pi)%Z
            then aquicksort_loop f t pl (pi - 1) ((pi + 1, pr, cdepth) :: stack) cdepth false
            else aquicksort_loop f t (pi + 1) pr ((pl, pi - 1, cdepth) :: stack) cdepth false
        end
      else
        pop (insertion_sort (Z.to_nat (pr - pl)) t pl (pl + 1))
  end.

End Keys.

(** [np.argsort(v, kind="quicksort")]; [None] only if a loop of the model ran
    out of fuel. *)
Definition argsort (v : list string) : option (list nat) :=
  let num := List.length v in
  aquicksort_loop v (2 * num + 2)%nat (seq 0%nat num) 0 (Z.of_nat num - 1) []
                  (Z.log2 (Z.of_nat num) * 2) true.

End Numpy.


(** ** scripts/process_barakah.py *)

Module ProcessData.

Import Scoring.

(** One element of [daily_logs.json], with every key the logging form
    writes.  The four outcome ratings may be null. *)
Module Entry.
Record RawLogEntry : Type := {
  date : string;
  Fajr : bool;
  Dhuhr : bool;
  Asr : bool;
  Maghrib : bool;
  Isha : bool;
  quran_recs : list Recitation;
  dhikr_reps : Z;
  sadaqah_amount : R;
  sleep_hours : R;
  bedtime : string;
  app_minutes : dict R;
  other_good : Z;
  other_bad : Z;
  clarity : option Z;
  focus : option Z;
  calm : option Z;
  productivity : option Z
}.
End Entry.

(** One row of the feature table [feat]. *)
Module Row.
Record FeatureRecord : Type := {
  date : string;
  prayer_on_time : R;
  quran_items : Z;
  dhikr_reps : Z;
  sadaqah_amount : R;
  sleep_hours : R;
  bedtime : string;
  other_good : Z;
  other_bad : Z;
  prod_minutes : R;
  dist_minutes : R;
  clarity : option Z;
  focus : option Z;
  calm : option Z;
  productivity : option Z
}.
End Row.

Export Entry Row.

Definition int_of_bool (b : bool) : Z := if b then 1%Z else 0%Z.

(** [logs[prayer_cols].mean(axis=1)]. *)
Definition prayer_mean (e : RawLogEntry) : R :=
  IZR (int_of_bool (Fajr e) + int_of_bool (Dhuhr e) + int_of_bool (Asr e)
       + int_of_bool (Maghrib e) + int_of_bool (Isha e)) / 5.

(** [sum(int(x.get("ayahs", 0)) for x in xs)]. *)
Definition quran_items_of (xs : list Recitation) : Z :=
  fold_left Z.add
    (map (fun x => match ayahs x with Some a => a | None => 0%Z end) xs) 0%Z.

(** [set(cfg.get("screen_time", {}).get(key, []))]: the members of the
    configured list; [.get] on something that is no dictionary is an
    [AttributeError], [set] of a number a [TypeError]. *)
Definition screen_apps (cfg : value) (key : string) : result (list string) :=
  match cfg with
  | VDict d =>
      match get_default d "screen_time" (VDict []) with
      | VDict st =>
          match get_default st key (VList []) with
          | VList xs => Ok xs
          | VDict d' => Ok (map fst d')
          | VStr s => Ok (map (fun c => String c "") (list_ascii_of_string s))
          | _ => Raise TypeError
          end
      | _ => Raise AttributeError
      end
  | _ => Raise AttributeError
  end.

(** The loop of [split_minutes] over the items of one day's app minutes. *)
Definition split_minutes_loop (prod_list dist_list : list string) (m : dict R) : R * R :=
  fold_left
    (fun (acc : R * R) (am : string * R) =>
       let prod := if contains prod_list (fst am) then fst acc + snd am else fst acc in
       let dist := if contains dist_list (fst am) then snd acc + snd am else snd acc in
       (prod, dist))
    m (0, 0).

Definition split_minutes (cfg : value) (m : dict R) : result (R * R) :=
  prod_list <- screen_apps cfg "productive_apps" ;;
  dist_list <- screen_apps cfg "distracting_apps" ;;
  Ok (split_minutes_loop prod_list dist_list m).

(** The row of [feat] built from one entry, [d] being its normalised date.
    The counts [dhikr_reps], [other_good] and [other_bad] are copied as they
    are: [.astype(int)] is the identity on the 64-bit integers
    ([Range.int64]), and statements about the values of a row are made for
    entries within them ([Range.entry_int64]). *)
Definition feature_row (cfg : value) (d : string) (e : RawLogEntry)
  : result FeatureRecord :=
  split <- split_minutes cfg (Entry.app_minutes e) ;;
  Ok {| Row.date := d;
        Row.prayer_on_time := prayer_mean e;
        Row.quran_items := quran_items_of (Entry.quran_recs e);
        Row.dhikr_reps := Entry.dhikr_reps e;
        Row.sadaqah_amount := Entry.sadaqah_amount e;
        Row.sleep_hours := Entry.sleep_hours e;
        Row.bedtime := Entry.bedtime e;
        Row.other_good := Entry.other_good e;
        Row.other_bad := Entry.other_bad e;
        Row.prod_minutes := fst split;
        Row.dist_minutes := snd split;
        Row.clarity := Entry.clarity e;
        Row.focus := Entry.focus e;
        Row.calm := Entry.calm e;
        Row.productivity := Entry.productivity e |}.

(** Rows built one after the other; the first exception ends the run. *)
Fixpoint feature_rows (cfg : value) (dated : list (string * RawLogEntry))
  : result (list FeatureRecord) :=
  match dated with
  | [] => Ok []
  | (d, e) :: rest =>
      r <- feature_row cfg d e ;;
      rs <- feature_rows cfg rest ;;
      Ok (r :: rs)
  end.

(** [DataFrame.take(indexer)]. *)
Definition take {A : Type} (rows : list A) (indexer : list nat) : list A :=
  flat_map (fun i => match nth_error rows i with Some r => [r] | None => [] end)
           indexer.

(** [drop_duplicates("date", keep="last")]: a row stays when no later row
    carries its date. *)
Fixpoint drop_duplicates_last (rows : list FeatureRecord) : list FeatureRecord :=
  match rows with
  | [] => []
  | r :: rest =>
      if existsb (fun r' => String.eqb (Row.date r') (Row.date r)) rest
      then drop_duplicates_last rest
      else r :: drop_duplicates_last rest
  end.

Section WithPandas.

(** [pd.to_datetime(col).dt.date.astype(str)] on the whole date column
    ([Raise] where pandas rejects the column), and the index sort behind
    [sort_values] are the library's. *)
Variable to_date_str : list string -> result (list string).
Variable argsort : list string -> list nat.

Definition sort_values (rows : list FeatureRecord) : list FeatureRecord :=
  take rows (argsort (map Row.date rows)).

(** [build_features] on a log whose entries carry every key the form
    writes, so that each [logs.get(key, default)] finds its column and no
    cell is missing. *)
Definition build_features (cfg : value) (logs : list RawLogEntry)
  : result (list FeatureRecord) :=
  match logs with
  | [] => Ok []
  | _ =>
      dates <- to_date_str (map Entry.date logs) ;;
      feat <- feature_rows cfg (combine dates logs) ;;
      Ok (drop_duplicates_last (sort_values feat))
  end.

End WithPandas.

End ProcessData.

(** ** scripts/calculate_barakah.py *)

Module CalculateBaraka.

Import Scoring ProcessData.

(** [section[key]] read as a number. *)
Definition num_item (section : value) (key : string) : result R :=
  x <- getitem section key ;;
  as_num x.

(** [section[key]] read as a string. *)
Definition str_item (section : value) (key : string) : result string :=
  x <- getitem section key ;;
  match x with
  | VStr s => Ok s
  | _ => Raise TypeError
  end.

(** [cfg["weights"]] as the mapping handed to [weighted_baraka_score]. *)
Fixpoint weight_items (d : list (string * value)) : result (dict R) :=
  match d with
  | [] => Ok []
  | (k, x) :: d' =>
      w <- as_num x ;;
      ws <- weight_items d' ;;
      Ok ((k, w) :: ws)
  end.

Definition weights_of (cfg : value) : result (dict R) :=
  x <- getitem cfg "weights" ;;
  match x with
  | VDict d => weight_items d
  | _ => Raise AttributeError
  end.

Section WithClock.

Variable _to_time : string -> option nat.

Definition calculate_score_components (row : FeatureRecord) (cfg : value)
  : result (dict R) :=
  (* Prayer score *)
  let prayer := Row.prayer_on_time row * 100 in
  (* Quran recitation score *)
  quran_cfg <- getitem cfg "quran" ;;
  quran_max <- num_item quran_cfg "max_daily_points" ;;
  q <- truediv (IZR (Row.quran_items row)) quran_max ;;
  let quran_recitation := Rmin 100 (q * 100) in
  (* Dhikr score *)
  dhikr_config <- getitem cfg "dhikr" ;;
  points_per_repetition <- num_item dhikr_config "points_per_repetition" ;;
  let dhikr_points := IZR (Row.dhikr_reps row) * points_per_repetition in
  dhikr_max <- num_item dhikr_config "max_daily_points" ;;
  q <- truediv dhikr_points dhikr_max ;;
  let dhikr := Rmin 100 (q * 100) in
  (* Sadaqah score *)
  sadaqah_config <- getitem cfg "sadaqah" ;;
  log_scale <- getitem sadaqah_config "log_scale" ;;
  log_base <- num_item sadaqah_config "log_base" ;;
  sadaqah_max <- num_item sadaqah_config "max_daily_points" ;;
  sadaqah <- score_sadaqah (Row.sadaqah_amount row) (truthy log_scale)
                           log_base sadaqah_max ;;
  (* Sleep score *)
  let bedtime := if String.eqb (Row.bedtime row) "" then None
                 else Some (Row.bedtime row) in
  sleep_config <- getitem cfg "sleep" ;;
  ideal_min_hours <- num_item sleep_config "ideal_min_hours" ;;
  ideal_max_hours <- num_item sleep_config "ideal_max_hours" ;;
  bedtime_bonus_before <- str_item sleep_config "bedtime_bonus_before" ;;
  sleep_max <- num_item sleep_config "max_daily_points" ;;
  sleep <- score_sleep _to_time (Some (Row.sleep_hours row)) bedtime
                       ideal_min_hours ideal_max_hours bedtime_bonus_before
                       sleep_max ;;
  (* Screen time score *)
  let screen_time_data :=
    [("productive", Row.prod_minutes row); ("distracting", Row.dist_minutes row)] in
  screen_cfg <- getitem cfg "screen_time" ;;
  max_daily_minutes <- num_item screen_cfg "max_daily_minutes" ;;
  let screen_time_config :=
    {| productive_apps := Some ["productive"];
       distracting_apps := Some ["distracting"];
       max_daily_minutes := Some max_daily_minutes |} in
  screen_time <- score_screen_time screen_time_data screen_time_config ;;
  (* Other activities scores *)
  other_config <- getitem cfg "other" ;;
  good_points <- num_item other_config "good_points" ;;
  bad_points <- num_item other_config "bad_points" ;;
  other_good <- score_other (Row.other_good row) 0 good_points bad_points ;;
  good_points' <- num_item other_config "good_points" ;;
  bad_points' <- num_item other_config "bad_points" ;;
  other_bad <- score_other 0 (Row.other_bad row) good_points' bad_points' ;;
  Ok [("prayer_on_time", prayer);
      ("quran_recitation", quran_recitation);
      ("dhikr", dhikr);
      ("sadaqah", sadaqah);
      ("sleep", sleep);
      ("screen_time", screen_time);
      ("other_good", other_good);
      ("other_bad", other_bad)].

(** One row of the score table: the date, the components, the composite
    score and the outcome ratings carried over. *)
Record ScoreRecord : Type := {
  score_date : string;
  components : dict R;
  baraka_score : R;
  outcomes : list (option Z)
}.

Definition score_row (cfg : value) (row : FeatureRecord) : result ScoreRecord :=
  comps <- calculate_score_components row cfg ;;
  weights <- weights_of cfg ;;
  score <- weighted_baraka_score comps weights ;;
  Ok {| score_date := Row.date row;
        components := comps;
        baraka_score := score;
        outcomes := [Row.clarity row; Row.focus row; Row.calm row;
                     Row.productivity row] |}.

Fixpoint score_rows (cfg : value) (feat : list FeatureRecord)
  : result (list ScoreRecord) :=
  match feat with
  | [] => Ok []
  | row :: rest =>
      r <- score_row cfg row ;;
      rs <- score_rows cfg rest ;;
      Ok (r :: rs)
  end.

Variable to_date_str : list string -> result (list string).
Variable argsort : list string -> list nat.

(** [compute_scores]: the same configuration snapshot serves the feature
    builder and the scorers; the CSV files written on the way are left out. *)
Definition compute_scores (cfg : value) (logs : list RawLogEntry)
  : result (list ScoreRecord) :=
  feat <- build_features to_date_str argsort cfg logs ;;
  match feat with
  | [] => Ok []
  | _ =>
      rows <- score_rows cfg feat ;;
      Ok (take rows (argsort (map score_date rows)))
  end.

End WithClock.

End CalculateBaraka.

(** ** scripts/barakah_model.py *)

Module TrainModel.

Import ProcessData.

(** A column as [pd.read_csv] types it: numbers (an empty cell is NaN,
    [None]) or objects. *)
Inductive column : Type :=
| NumCol (xs : list (option R))
| ObjCol (xs : list (option string)).

(** A data frame: its columns in order, all of one length. *)
Definition DataFrame : Type := list (string * column).

Definition numeric_columns (df : DataFrame) : list (string * list (option R)) :=
  flat_map (fun c => match snd c with
                     | NumCol xs => [(fst c, xs)]
                     | ObjCol _ => []
                     end) df.

(** [df[[...]]] for the four outcome ratings followed by [.mean(axis=1)]
    needs each of them, and numbers in them. *)
Definition outcome_column (df : DataFrame) (k : string) : result (list (option R)) :=
  match get df k with
  | None => Raise (KeyError k)
  | Some (NumCol xs) => Ok xs
  | Some (ObjCol _) => Raise TypeError
  end.

(** Mean of the ratings present in one row; NaN when there is none. *)
Definition row_mean (cells : list (option R)) : option R :=
  let present := flat_map (fun c => match c with Some x => [x] | None => [] end) cells in
  match present with
  | [] => None
  | _ => Some (Py.sum present / INR (List.length present))
  end.

Fixpoint zip4 (a b c d : list (option R)) : list (list (option R)) :=
  match a, b, c, d with
  | x :: a', y :: b', z :: c', w :: d' => [x; y; z; w] :: zip4 a' b' c' d'
  | _, _, _, _ => []
  end.

(** Keep the cells of the rows selected by [mask]. *)
Fixpoint select {A : Type} (mask : list bool) (xs : list A) : list A :=
  match mask, xs with
  | true :: mask', x :: xs' => x :: select mask' xs'
  | false :: mask', _ :: xs' => select mask' xs'
  | _, _ => []
  end.

Definition select_column (mask : list bool) (c : column) : column :=
  match c with
  | NumCol xs => NumCol (select mask xs)
  | ObjCol xs => ObjCol (select mask xs)
  end.

Definition fillna0 (c : column) : column :=
  match c with
  | NumCol xs => NumCol (map (fun x => match x with Some _ => x | None => Some 0 end) xs)
  | ObjCol xs => ObjCol xs
  end.

Definition feature_columns : list string :=
  ["prayer_on_time"; "quran_items"; "dhikr_reps"; "sadaqah_amount";
   "sleep_hours"; "prod_minutes"; "dist_minutes"; "other_good"; "other_bad"].

(** [prepare_features_and_target]: a missing feature column is a column of
    zeros. *)
Definition prepare_features (n : nat) (df : DataFrame) : DataFrame :=
  map (fun col =>
         (col, fillna0 (get_default df col (NumCol (repeat (Some 0) n)))))
      feature_columns.

(** The model report. *)
Inductive Report : Type :=
| NoData
| InsufficientData (correlations : dict R)
| Fitted (cv_r2_mean cv_r2_std : R) (feature_importances : dict R)
         (correlations_with_outcome : dict R) (n_samples : nat).

Definition status (r : Report) : string :=
  match r with
  | NoData => "no_data"
  | InsufficientData _ => "insufficient_data"
  | Fitted _ _ _ _ _ => "ok"
  end.

Section WithLibraries.

(** Pearson correlation of two numeric columns ([None] is NaN), and
    scikit-learn's cross-validation and fit giving the mean and deviation of
    the scores and the importances, are the libraries'. *)
Variable pearson : list (option R) -> list (option R) -> option R.
Variable train_model : DataFrame -> list R -> result (R * R * list R).

(** [df.corr(numeric_only=True).fillna(0)]: one column of coefficients per
    numeric column of [df]. *)
Definition corr (df : DataFrame) : dict (dict R) :=
  let num := numeric_columns df in
  map (fun c =>
         (fst c,
          map (fun c' =>
                 (fst c',
                  match pearson (snd c') (snd c) with
                  | Some x => x
                  | None => 0
                  end)) num)) num.

(** [corr["avg_outcome"].to_dict()]. *)
Definition corr_avg_outcome (corr : dict (dict R)) : result (dict R) :=
  match get corr "avg_outcome" with
  | Some c => Ok c
  | None => Raise (KeyError "avg_outcome")
  end.

(** [train_and_analyze]; [file] is the processed feature table as read back
    from [daily_features.csv], [None] when the file does not exist.  Writing
    the report and the model to disk is left out. *)
Definition train_and_analyze (file : option DataFrame) : result Report :=
  match file with
  | None => Ok NoData
  | Some df =>
      let corr := corr df in
      clarity <- outcome_column df "clarity" ;;
      focus <- outcome_column df "focus" ;;
      calm <- outcome_column df "calm" ;;
      productivity <- outcome_column df "productivity" ;;
      let avg_outcome := map row_mean (zip4 clarity focus calm productivity) in
      let mask := map (fun a => match a with Some _ => true | None => false end)
                      avg_outcome in
      let kept : DataFrame := map (fun c => (fst c, select_column mask (snd c))) df in
      let y := flat_map (fun a => match a with Some x => [x] | None => [] end)
                        avg_outcome in
      let len := List.length y in
      if Nat.ltb len 10 then
        correlations <- corr_avg_outcome corr ;;
        Ok (InsufficientData correlations)
      else
        let X := prepare_features len kept in
        fit <- train_model X y ;;
        let '(mean, std, importances) := fit in
        correlations <- corr_avg_outcome corr ;;
        Ok (Fitted mean std (combine (map fst X) importances) correlations len)
  end.

End WithLibraries.

(** The table [build_features] saves, as [pd.read_csv] gives it back:
    the dates are objects, the bedtimes are objects unless every cell is
    empty, every other column is numeric. *)
Definition opt_num (x : option Z) : option R :=
  match x with Some z => Some (IZR z) | None => None end.

Definition csv_frame (feat : list FeatureRecord) : DataFrame :=
  let num (f : FeatureRecord -> R) := NumCol (map (fun r => Some (f r)) feat) in
  let int (f : FeatureRecord -> Z) := NumCol (map (fun r => Some (IZR (f r))) feat) in
  let rating (f : FeatureRecord -> option Z) := NumCol (map (fun r => opt_num (f r)) feat) in
  [("date", ObjCol (map (fun r => Some (Row.date r)) feat));
   ("prayer_on_time", num Row.prayer_on_time);
   ("quran_items", int Row.quran_items);
   ("dhikr_reps", int Row.dhikr_reps);
   ("sadaqah_amount", num Row.sadaqah_amount);
   ("sleep_hours", num Row.sleep_hours);
   ("bedtime",
    if forallb (fun r => String.eqb (Row.bedtime r) "") feat
    then NumCol (map (fun _ => None) feat)
    else ObjCol (map (fun r => if String.eqb (Row.bedtime r) "" then None
                               else Some (Row.bedtime r)) feat));
   ("other_good", int Row.other_good);
   ("other_bad", int Row.other_bad);
   ("prod_minutes", num Row.prod_minutes);
   ("dist_minutes", num Row.dist_minutes);
   ("clarity", rating Row.clarity);
   ("focus", rating Row.focus);
   ("calm", rating Row.calm);
   ("productivity", rating Row.productivity)].

End TrainModel.

(** ** Vocabulary of the statements *)

Module Spec.

Import Scoring ProcessData TrainModel.

(** The score of a positive amount under a policy that scores it: the
    closed form of [score_sadaqah]. *)
Definition sadaqah_value (amount : R) (log_scale : bool) : R :=
  if log_scale then Rmin 100 (ln (amount + 1) / ln (1000 + 1) * 100)
  else Rmin 100 (amount / 1000 * 100).

(** A charitable-giving policy whose logarithm is defined. *)
Definition valid_log_policy (log_scale : bool) (log_base : R) : Prop :=
  log_scale = false \/ (0 < log_base /\ log_base <> 1).

(** A returned score within the component range. *)
Definition bounded (m : result R) : Prop :=
  exists s, m = Ok s /\ 0 <= s <= 100.

(** All weights multiplied by [k]. *)
Definition scale_weights (k : R) (weights : dict R) : dict R :=
  map (fun kw => (fst kw, k * snd kw)) weights.

(** A call of one of the component scorers of [utils/scoring.py]. *)
Inductive call : Type :=
| Prayer (prayers : dict Z)
| Quran (recitations : list Recitation) (base_points_per_ayah max_daily_points : R)
| Dhikr (total_reps : Z) (points_per_repetition max_daily_points : R)
| Sadaqah (amount : R) (log_scale : bool) (log_base max_daily_points : R)
| Sleep (hours : option R) (bedtime : option string) (ideal_min ideal_max : R)
        (bedtime_bonus_before : string) (max_daily_points : R)
| ScreenTime (app_minutes : dict R) (cfg : ScreenCfg)
| Other (good_count bad_count : Z) (good_points bad_points : R).

Section Calls.

Variable NAME_TO_AYAH : string -> option Z.
Variable _to_time : string -> option nat.

Definition run (c : call) : result R :=
  match c with
  | Prayer p => score_prayer p
  | Quran rs base m => score_quran NAME_TO_AYAH rs base m
  | Dhikr reps ppr m => score_dhikr reps ppr m
  | Sadaqah a ls lb m => score_sadaqah a ls lb m
  | Sleep h b lo hi before m => score_sleep _to_time h b lo hi before m
  | ScreenTime am cfg => score_screen_time am cfg
  | Other g b gp bp => score_other g b gp bp
  end.

(** The reference table holds ayah counts. *)
Definition table_nonneg : Prop :=
  forall s n, NAME_TO_AYAH s = Some n -> (0 <= n)%Z.

(** Non-negative input under a valid policy: prayer flags are 0 or 1 (what
    [validate_prayers] produces), counts, amounts, minutes and point rates
    are not negative, each [max_daily_points] is positive, the logarithm of
    the charitable-giving policy is defined, and the screen-time section has
    its three keys. *)
Definition in_domain (c : call) : Prop :=
  match c with
  | Prayer p => Forall (fun kv => snd kv = 0%Z \/ snd kv = 1%Z) p
  | Quran rs base m =>
      Forall (fun r => match ayahs r with Some a => (0 <= a)%Z | None => True end) rs
      /\ table_nonneg /\ 0 <= base /\ 0 < m
  | Dhikr reps ppr m => (0 <= reps)%Z /\ 0 <= ppr /\ 0 < m
  | Sadaqah a ls lb m => 0 <= a /\ valid_log_policy ls lb
  | Sleep h b lo hi before m => match h with Some x => 0 <= x | None => True end
  | ScreenTime am cfg =>
      Forall (fun kv => 0 <= snd kv) am
      /\ productive_apps cfg <> None /\ distracting_apps cfg <> None
      /\ max_daily_minutes cfg <> None
  | Other g b gp bp => (0 <= g)%Z /\ (0 <= b)%Z
  end.

(** The inputs on which a scorer returns a score. *)
Definition defined_on (c : call) : Prop :=
  match c with
  | Prayer _ => True
  | Quran rs _ m => rs = [] \/ m <> 0
  | Dhikr _ _ m => m <> 0
  | Sadaqah a ls lb _ => a <= 0 \/ valid_log_policy ls lb
  | Sleep _ _ _ _ _ _ => True
  | ScreenTime am cfg =>
      am = [] \/ (productive_apps cfg <> None /\ distracting_apps cfg <> None
                  /\ max_daily_minutes cfg <> None)
  | Other _ _ _ _ => True
  end.

End Calls.

(** A complete configuration, used to run the pipeline on examples. *)
Definition example_cfg : value :=
  VDict
    [("weights",
      VDict [("prayer_on_time", VNum 0.3); ("quran_recitation", VNum 0.2);
             ("dhikr", VNum 0.1); ("sadaqah", VNum 0.1); ("sleep", VNum 0.1);
             ("screen_time", VNum 0.1); ("other_good", VNum 0.05);
             ("other_bad", VNum 0.05)]);
     ("quran", VDict [("base_points_per_ayah", VNum 1); ("max_daily_points", VNum 100)]);
     ("dhikr", VDict [("points_per_repetition", VNum 0.1); ("max_daily_points", VNum 100)]);
     ("sadaqah", VDict [("log_scale", VBool true); ("log_base", VNum 10);
                        ("max_daily_points", VNum 100)]);
     ("sleep", VDict [("ideal_min_hours", VNum 7); ("ideal_max_hours", VNum 8.5);
                      ("bedtime_bonus_before", VStr "23:00");
                      ("max_daily_points", VNum 100)]);
     ("screen_time", VDict [("productive_apps", VList ["Notion"; "Kindle"]);
                            ("distracting_apps", VList ["TikTok"; "Instagram"]);
                            ("max_daily_minutes", VNum 120)]);
     ("other", VDict [("good_points", VNum 10); ("bad_points", VNum 10)])].

(** A day on which nothing was logged. *)
Definition blank_entry (d : string) : RawLogEntry :=
  {| Entry.date := d;
     Fajr := false; Dhuhr := false; Asr := false; Maghrib := false; Isha := false;
     quran_recs := [];
     Entry.dhikr_reps := 0;
     Entry.sadaqah_amount := 0;
     Entry.sleep_hours := 0;
     Entry.bedtime := "";
     app_minutes := [];
     Entry.other_good := 0;
     Entry.other_bad := 0;
     Entry.clarity := None; Entry.focus := None; Entry.calm := None;
     Entry.productivity := None |}.

(** A day on which one surah was logged with the ayah count left at 0, which
    the logging form labels as standing for the full surah. *)
Definition whole_surah_entry (d s : string) : RawLogEntry :=
  {| Entry.date := d;
     Fajr := false; Dhuhr := false; Asr := false; Maghrib := false; Isha := false;
     quran_recs := [{| surah := Some s; ayahs := Some 0%Z |}];
     Entry.dhikr_reps := 0;
     Entry.sadaqah_amount := 0;
     Entry.sleep_hours := 0;
     Entry.bedtime := "";
     app_minutes := [];
     Entry.other_good := 0;
     Entry.other_bad := 0;
     Entry.clarity := None; Entry.focus := None; Entry.calm := None;
     Entry.productivity := None |}.

(** A reference table with the one entry used in the examples. *)
Definition example_table (s : string) : option Z :=
  if String.eqb s "Al-Kahf" then Some 110%Z else None.

(** The feature row of a day with [good] good and [bad] bad other habits and
    nothing else. *)
Definition habits_row (d : string) (good bad : Z) : FeatureRecord :=
  {| Row.date := d;
     prayer_on_time := 0;
     quran_items := 0;
     Row.dhikr_reps := 0;
     Row.sadaqah_amount := 0;
     Row.sleep_hours := 0;
     Row.bedtime := "";
     Row.other_good := good;
     Row.other_bad := bad;
     prod_minutes := 0;
     dist_minutes := 0;
     Row.clarity := None; Row.focus := None; Row.calm := None;
     Row.productivity := None |}.

(** pandas' [nargsort] on a column without missing values: numpy's
    [argsort] of kind quicksort. *)
Definition nargsort (v : list string) : list nat :=
  match Numpy.argsort v with
  | Some tosort => tosort
  | None => []
  end.

(** The date normalisation on dates that are already calendar dates in ISO
    form, as the logging form writes them: they are left as they are. *)
Definition iso_dates (dates : list string) : result (list string) := Ok dates.

(** A day on which only [reps] repetitions of dhikr were logged. *)
Definition dhikr_entry (d : string) (reps : Z) : RawLogEntry :=
  {| Entry.date := d;
     Fajr := false; Dhuhr := false; Asr := false; Maghrib := false; Isha := false;
     quran_recs := [];
     Entry.dhikr_reps := reps;
     Entry.sadaqah_amount := 0;
     Entry.sleep_hours := 0;
     Entry.bedtime := "";
     app_minutes := [];
     Entry.other_good := 0;
     Entry.other_bad := 0;
     Entry.clarity := None; Entry.focus := None; Entry.calm := None;
     Entry.productivity := None |}.

(** Seventeen days logged in order, the eighth day submitted twice in a
    row: first with 33 repetitions, then, corrected, with 100. *)
Definition resubmitted_log : list RawLogEntry :=
  [dhikr_entry "2025-01-01" 0; dhikr_entry "2025-01-02" 0;
   dhikr_entry "2025-01-03" 0; dhikr_entry "2025-01-04" 0;
   dhikr_entry "2025-01-05" 0; dhikr_entry "2025-01-06" 0;
   dhikr_entry "2025-01-07" 0; dhikr_entry "2025-01-08" 33;
   dhikr_entry "2025-01-08" 100; dhikr_entry "2025-01-09" 0;
   dhikr_entry "2025-01-10" 0; dhikr_entry "2025-01-11" 0;
   dhikr_entry "2025-01-12" 0; dhikr_entry "2025-01-13" 0;
   dhikr_entry "2025-01-14" 0; dhikr_entry "2025-01-15" 0;
   dhikr_entry "2025-01-16" 0; dhikr_entry "2025-01-17" 0].

(** The last element of a list, as a list of at most one element. *)
Fixpoint keep_last {A : Type} (l : list A) : list A :=
  match l with
  | [] => []
  | x :: l' => match l' with [] => [x] | _ => keep_last l' end
  end.

Definition has_date (d : string) (r : FeatureRecord) : bool :=
  String.eqb (Row.date r) d.

(** A sort that keeps the rows of one date in the order they had. *)
Definition order_preserving (argsort : list string -> list nat) : Prop :=
  forall (rows : list FeatureRecord) (d : string),
    filter (has_date d) (sort_values argsort rows) = filter (has_date d) rows.

(** A feature row with the four outcome ratings given. *)
Definition rated_row (d : string) (rating : Z) : FeatureRecord :=
  {| Row.date := d;
     prayer_on_time := 1;
     quran_items := 0;
     Row.dhikr_reps := 0;
     Row.sadaqah_amount := 0;
     Row.sleep_hours := 7;
     Row.bedtime := "22:30";
     Row.other_good := 0;
     Row.other_bad := 0;
     prod_minutes := 0;
     dist_minutes := 0;
     Row.clarity := Some rating; Row.focus := Some rating;
     Row.calm := Some rating; Row.productivity := Some rating |}.

(** A row has an outcome when at least one of its four ratings is present. *)
Definition has_outcome (r : FeatureRecord) : bool :=
  match Row.clarity r, Row.focus r, Row.calm r, Row.productivity r with
  | None, None, None, None => false
  | _, _, _, _ => true
  end.

Definition outcome_bearing (feat : list FeatureRecord) : nat :=
  List.length (filter has_outcome feat).

(** The components the claim on other habits describes: both from the one
    raw value that combines the two counts. *)
Definition other_combined (row : FeatureRecord) (good_points bad_points : R) : R :=
  Rmax 0 (Rmin 100
    ((IZR (Row.other_good row) * good_points
      - IZR (Row.other_bad row) * bad_points + 100) / 200 * 100)).

(** The components the code computes: each from its own count. *)
Definition other_good_only (row : FeatureRecord) (good_points : R) : R :=
  Rmax 0 (Rmin 100 ((IZR (Row.other_good row) * good_points + 100) / 200 * 100)).

Definition other_bad_only (row : FeatureRecord) (bad_points : R) : R :=
  Rmax 0 (Rmin 100 ((- (IZR (Row.other_bad row) * bad_points) + 100) / 200 * 100)).

End Spec.

(** ** scripts/process_barakah.py: screen-time payloads *)

Module ScreenPayload.

(** One payload [{"date": ..., "apps": {...}}]; [None] is an absent key. *)
Record Payload : Type := {
  date : option string;
  apps : option (dict R)
}.

(** [d[k] = v]: an existing key keeps its place, a new key goes last. *)
Fixpoint setitem {V : Type} (d : dict V) (k : string) (v : V) : dict V :=
  match d with
  | [] => [(k, v)]
  | (k', v') :: d' =>
      if String.eqb k' k then (k', v) :: d' else (k', v') :: setitem d' k v
  end.

(** [d.setdefault(k, default)], of which the code uses the effect only. *)
Definition setdefault {V : Type} (d : dict V) (k : string) (default : V) : dict V :=
  match get d k with
  | Some _ => d
  | None => setitem d k default
  end.

(** The inner loop: [per_day[day][a] = per_day[day].get(a, 0.0) + float(m)]
    for every item of [apps]. *)
Definition add_apps (day_apps apps : dict R) : dict R :=
  fold_left
    (fun acc am => setitem acc (fst am) (get_default acc (fst am) 0 + snd am))
    apps day_apps.

(** One turn of the outer loop; a payload without a date, or with an empty
    one, is skipped. *)
Definition add_payload (per_day : dict (dict R)) (p : Payload) : dict (dict R) :=
  match date p with
  | None => per_day
  | Some day =>
      if String.eqb day "" then per_day
      else
        let per_day := setdefault per_day day [] in
        setitem per_day day
          (add_apps (get_default per_day day [])
                    (match apps p with Some a => a | None => [] end))
  end.

Definition parse_screen_time_payload (payloads : list Payload) : dict (dict R) :=
  fold_left add_payload payloads [].

End ScreenPayload.

(** ** Vocabulary of the further statements *)

Module Spec2.

Import Scoring ProcessData CalculateBaraka TrainModel ScreenPayload Spec.

(** The minutes one payload reports for [app] on [day]. *)
Definition payload_minutes (day app : string) (p : Payload) : R :=
  match ScreenPayload.date p with
  | Some d =>
      if (String.eqb d day && negb (String.eqb d ""))%bool
      then Py.sum (map snd
             (filter (fun am => String.eqb (fst am) app)
                     (match apps p with Some a => a | None => [] end)))
      else 0
  | None => 0
  end.

(** [per_day.get(day, {}).get(app, 0.0)]. *)
Definition minutes_of (per_day : dict (dict R)) (day app : string) : R :=
  get_default (get_default per_day day []) app 0.

(** The five prayer flags of an entry as the mapping the form holds. *)
Definition entry_prayers (e : RawLogEntry) : dict bool :=
  [("Fajr", Fajr e); ("Dhuhr", Dhuhr e); ("Asr", Asr e);
   ("Maghrib", Maghrib e); ("Isha", Isha e)].

(** The keys of the component mapping, in the order they are entered. *)
Definition component_keys : list string :=
  ["prayer_on_time"; "quran_recitation"; "dhikr"; "sadaqah"; "sleep";
   "screen_time"; "other_good"; "other_bad"].

(** Cleaned outcome ratings handed back to [clean_outcomes]. *)
Definition as_raw_outcomes (o : dict Z) : dict (option Z) :=
  map (fun kv => (fst kv, Some (snd kv))) o.

(** A day with app minutes and nothing else. *)
Definition apps_entry (d : string) : RawLogEntry :=
  {| Entry.date := d;
     Fajr := false; Dhuhr := false; Asr := false; Maghrib := false; Isha := false;
     quran_recs := [];
     Entry.dhikr_reps := 0;
     Entry.sadaqah_amount := 0;
     Entry.sleep_hours := 0;
     Entry.bedtime := "";
     app_minutes := [("Notion", 60); ("TikTok", 30); ("Maps", 15)];
     Entry.other_good := 0;
     Entry.other_bad := 0;
     Entry.clarity := None; Entry.focus := None; Entry.calm := None;
     Entry.productivity := None |}.

(** Ten rated days. *)
Definition ten_rated_rows : list FeatureRecord :=
  map (fun d => rated_row d 4)
      ["2025-01-01"; "2025-01-02"; "2025-01-03"; "2025-01-04"; "2025-01-05";
       "2025-01-06"; "2025-01-07"; "2025-01-08"; "2025-01-09"; "2025-01-10"].

(** A table with a numeric column [avg_outcome] of its own. *)
Definition frame_with_avg_outcome : DataFrame :=
  [("dhikr_reps", NumCol [Some 10; Some 20]);
   ("clarity", NumCol [Some 4; Some 2]);
   ("focus", NumCol [Some 4; None]);
   ("calm", NumCol [None; None]);
   ("productivity", NumCol [Some 4; Some 2]);
   ("avg_outcome", NumCol [Some 4; Some 2])].

End Spec2.

(** ** The aggregator and the remembrance scorer over binary64

    [Scoring] computes with exact reals.  Here [weighted_baraka_score] and
    [score_dhikr] are embedded once more, operation for operation, over
    binary64 floats with round-to-nearest-even, which is the arithmetic of
    a Python [float]. *)

Module Binary64.

Local Open Scope float_scope.

(** The two exceptions the arithmetic of [score_dhikr] can raise. *)
Inductive raised : Type :=
| OverflowError
| ZeroDivisionError.

Inductive outcome : Type :=
| Returns (x : float)
| Raises (e : raised).

(** The conversion of an [int] operand of [int * float] and [float / int]:
    the nearest float, ties to even, and [OverflowError] when the [int] is
    beyond the largest finite float. *)
Definition float_of_int (n : Z) : outcome :=
  let x := SF2Prim (binary_normalize prec emax n 0 false) in
  if is_infinity x then Raises OverflowError else Returns x.

(** [min(100.0, x)]: the second argument is returned only when it is
    smaller. *)
Definition min_100 (x : float) : float := if x <? 100 then x else 100.

Definition score_dhikr (total_reps : Z) (points_per_repetition : float)
    (max_daily_points : Z) : outcome :=
  match float_of_int total_reps with
  | Raises e => Raises e
  | Returns reps =>
      let pts := reps * points_per_repetition in
      match float_of_int max_daily_points with
      | Raises e => Raises e
      | Returns m =>
          if m =? 0 then Raises ZeroDivisionError
          else Returns (min_100 (pts / m * 100))
      end
  end.

(** [sum] over floats as CPython up to 3.11 computes it: one addition per
    item, left to right. *)
Definition sum_left (xs : list float) : float := fold_left PrimFloat.add xs 0.

(** One step of the compensated summation of CPython 3.12 and later: the
    running sum and the accumulated rounding error. *)
Definition cs_add (st : float * float) (x : float) : float * float :=
  let '(f_result, c) := st in
  let t := f_result + x in
  let c' := if abs x <=? abs f_result then c + ((f_result - t) + x)
            else c + ((x - t) + f_result) in
  (t, c').

(** [sum] over floats as CPython 3.12 and later computes it: the first item
    is added to the integer 0, the others with compensation, and the
    compensation is added at the end when it is finite and not 0. *)
Definition sum_compensated (xs : list float) : float :=
  match xs with
  | [] => 0
  | x :: rest =>
      let '(f_result, c) := fold_left cs_add rest (0 + x, 0) in
      if negb (c =? 0) && is_finite c then f_result + c else f_result
  end.

(** [weighted_baraka_score]; [sum] is the builtin of the interpreter in
    use, [sum_left] or [sum_compensated]. *)
Definition weighted_baraka_score (sum : list float -> float)
    (components weights : dict float) : float :=
  let s := sum (map snd weights) in
  let sw := if s =? 0 then 1 else s in
  sum (map (fun kw => get_default components (fst kw) 0 * (snd kw / sw)) weights).

End Binary64.

(** ** Magnitudes

    The exact model has neither the [OverflowError] of an [int] too large
    for a [float] nor the 64-bit integers of a table column.  The
    predicates below name the inputs on which neither is met. *)

Module Range.

Import Scoring ProcessData Spec.

(** The integers of a NumPy [int64] column, which [.astype(int)] leaves as
    they are; a Python [int] of this size converts to a [float] without
    [OverflowError]. *)
Definition int64 (n : Z) : Prop :=
  (-9223372036854775808 <= n <= 9223372036854775807)%Z.

(** A number of magnitude at most 2^63. *)
Definition in_range (x : R) : Prop :=
  -9223372036854775808 <= x <= 9223372036854775808.

Definition opt_in_range (x : option R) : Prop :=
  match x with Some v => in_range v | None => True end.

Definition ayahs_int64 (r : Recitation) : Prop :=
  match ayahs r with Some a => int64 a | None => True end.

Section Calls.

Variable NAME_TO_AYAH : string -> option Z.

Definition table_int64 : Prop :=
  forall s n, NAME_TO_AYAH s = Some n -> int64 n.

(** A scorer call all of whose numbers, and those of the reference table,
    are of magnitude at most 2^63. *)
Definition moderate (c : call) : Prop :=
  match c with
  | Prayer p => Forall (fun kv => int64 (snd kv)) p
  | Quran rs base m =>
      Forall ayahs_int64 rs /\ table_int64 /\ in_range base /\ in_range m
  | Dhikr reps ppr m => int64 reps /\ in_range ppr /\ in_range m
  | Sadaqah a ls lb m => in_range a /\ in_range lb /\ in_range m
  | Sleep h b lo hi before m =>
      opt_in_range h /\ in_range lo /\ in_range hi /\ in_range m
  | ScreenTime am cfg =>
      Forall (fun kv => in_range (snd kv)) am
      /\ opt_in_range (max_daily_minutes cfg)
  | Other g b gp bp => int64 g /\ int64 b /\ in_range gp /\ in_range bp
  end.

End Calls.

(** A mapping of components or of weights within that magnitude. *)
Definition dict_in_range (d : dict R) : Prop :=
  Forall (fun kv => in_range (snd kv)) d.

(** An entry whose integer counts fit the [int64] columns of the log
    frame. *)
Definition entry_int64 (e : RawLogEntry) : Prop :=
  int64 (Entry.dhikr_reps e) /\ int64 (Entry.other_good e)
  /\ int64 (Entry.other_bad e) /\ Forall ayahs_int64 (quran_recs e).

End Range.

(** ** Vocabulary of the statements over binary64 *)

Module Spec64.

Import Spec2.

Local Open Scope float_scope.

(** All weights multiplied by [k], as floats. *)
Definition scale_weights (k : float) (weights : dict float) : dict float :=
  map (fun kw => (fst kw, k * snd kw)) weights.

(** The weights of [example_cfg]. *)
Definition example_weights : dict float :=
  combine component_keys [0.3; 0.2; 0.1; 0.1; 0.1; 0.1; 0.05; 0.05].

(** The components of a day with some remembrance, charity, sleep and
    screen time. *)
Definition example_components : dict float :=
  combine component_keys [0; 0; 10; 25; 50; 40; 55; 45].

(** Signed weights that cancel, and one component. *)
Definition signed_weights : dict float :=
  [("prayer_on_time", 1); ("dhikr", -1)].

Definition one_component : dict float := [("prayer_on_time", 10)].

(** Weights as the sliders of the settings page give them, in steps of
    0.01. *)
Definition slider_weights : dict float :=
  combine component_keys [0.26; 0.33; 0.23; 0.37; 0.23; 0.3; 0.18; 0.36].

(** Every component at its maximum. *)
Definition full_components : dict float :=
  combine component_keys [100; 100; 100; 100; 100; 100; 100; 100].

End Spec64.

(** * Properties *)

Import Scoring ProcessData CalculateBaraka TrainModel Spec.

(** ** Real-number case analysis *)

Ltac real_cases :=
  repeat match goal with
  | |- context [Rle_dec ?a ?b] => destruct (Rle_dec a b)
  | |- context [Rlt_dec ?a ?b] => destruct (Rlt_dec a b)
  | |- context [Req_dec_T ?a ?b] => destruct (Req_dec_T a b)
  | H : context [Rle_dec ?a ?b] |- _ => destruct (Rle_dec a b)
  | H : context [Rlt_dec ?a ?b] |- _ => destruct (Rlt_dec a b)
  | H : context [Req_dec_T ?a ?b] |- _ => destruct (Req_dec_T a b)
  end.

Ltac minmax_cases := unfold Rmin, Rmax in *; real_cases.

Lemma truediv_ok (a b : R) : b <> 0 -> truediv a b = Ok (a / b).
Proof. intros Hb. unfold truediv. destruct (Req_dec_T b 0); [contradiction | reflexivity]. Qed.

Lemma truediv_zero (a : R) : truediv a 0 = Raise ZeroDivisionError.
Proof. unfold truediv. destruct (Req_dec_T 0 0); [reflexivity | contradiction n; reflexivity]. Qed.

Lemma truediv_inv (a b q : R) : truediv a b = Ok q -> b <> 0 /\ q = a / b.
Proof.
  unfold truediv. destruct (Req_dec_T b 0); intros H; inversion H; auto.
Qed.

Lemma bind_inv {A B : Type} (m : result A) (k : A -> result B) (b : B) :
  bind m k = Ok b -> exists a, m = Ok a /\ k a = Ok b.
Proof. destruct m; simpl; intros H; [eauto | discriminate]. Qed.

Lemma ln_1001_pos : 0 < ln (1000 + 1).
Proof. rewrite <- ln_1. apply ln_increasing; lra. Qed.

Lemma ln_nonneg (x : R) : 1 <= x -> 0 <= ln x.
Proof.
  intros [Hlt | Heq].
  - left. rewrite <- ln_1. apply ln_increasing; lra.
  - subst. rewrite ln_1. lra.
Qed.

Lemma ln_le_mono (x y : R) : 0 < x -> x <= y -> ln x <= ln y.
Proof.
  intros Hx [Hlt | Heq].
  - left. now apply ln_increasing.
  - subst. lra.
Qed.

(** ** The scorers on concrete inputs *)

Example score_prayer_three_of_five :
  score_prayer [("Fajr", 1); ("Dhuhr", 1); ("Asr", 0); ("Maghrib", 1); ("Isha", 0)]%Z
  = Ok 60.
Proof.
  unfold score_prayer. simpl. rewrite truediv_ok by lra. simpl. f_equal. lra.
Qed.

Example score_dhikr_hundred : score_dhikr 100 0.1 100 = Ok 10.
Proof.
  unfold score_dhikr. rewrite truediv_ok by lra. simpl. f_equal.
  replace (100 * 0.1 / 100 * 100) with 10 by lra.
  minmax_cases; lra.
Qed.

Example score_dhikr_capped : score_dhikr 5000 0.1 100 = Ok 100.
Proof.
  unfold score_dhikr. rewrite truediv_ok by lra. simpl. f_equal.
  replace (5000 * 0.1 / 100 * 100) with 500 by lra.
  minmax_cases; lra.
Qed.

Example score_quran_whole_surah :
  score_quran (fun s => if String.eqb s "Al-Kahf" then Some 110%Z else None)
    [{| surah := Some "Al-Kahf"; ayahs := Some 0%Z |}] 0.5 100 = Ok 55.
Proof.
  unfold score_quran. simpl. rewrite truediv_ok by lra. simpl. f_equal.
  change (ayat_of _ _) with 110%Z.
  replace ((0 + 110 * 0.5) / 100 * 100) with 55 by lra.
  minmax_cases; lra.
Qed.

Example score_sleep_short_night (clock : string -> option nat) :
  score_sleep clock (Some 5.5) None 7 8.5 "23:00" 100 = Ok 50.
Proof.
  unfold score_sleep, bedtime_bonus, minmax. f_equal.
  destruct (Rlt_dec 5.5 7); [| lra].
  destruct (Rle_dec 7 (7 - 3)); [lra |].
  replace ((5.5 - (7 - 3)) / (7 - (7 - 3))) with 0.5 by lra.
  minmax_cases; lra.
Qed.

Example score_sleep_early_night :
  score_sleep (fun t => if String.eqb t "22:30" then Some 1350%nat
                        else if String.eqb t "23:00" then Some 1380%nat else None)
    (Some 5.5) (Some "22:30") 7 8.5 "23:00" 100 = Ok 60.
Proof.
  unfold score_sleep, bedtime_bonus, minmax. simpl. f_equal.
  destruct (Rlt_dec 5.5 7); [| lra].
  destruct (Rle_dec 7 (7 - 3)); [lra |].
  replace ((5.5 - (7 - 3)) / (7 - (7 - 3))) with 0.5 by lra.
  minmax_cases; lra.
Qed.

Example score_screen_time_mixed :
  score_screen_time [("Notion", 60); ("TikTok", 30)]
    {| productive_apps := Some ["Notion"]; distracting_apps := Some ["TikTok"];
       max_daily_minutes := Some 120 |} = Ok 70.
Proof.
  unfold score_screen_time, minutes_in. simpl. unfold Py.sum. simpl.
  assert (H1 : Rmax (0 + 60 + (0 + 30)) 1 = 90) by (unfold Rmax; destruct (Rle_dec _ _); lra).
  assert (H2 : Rmax 1 120 = 120) by (unfold Rmax; destruct (Rle_dec _ _); lra).
  rewrite H1, H2. rewrite !truediv_ok by lra. simpl. f_equal.
  replace ((0 + 30) / 120) with 0.25 by lra.
  replace ((0 + 60) / 90) with (2 / 3) by lra.
  minmax_cases; lra.
Qed.

Example score_other_balanced : score_other 1 1 10 10 = Ok 50.
Proof.
  unfold score_other. f_equal.
  replace ((1 * 10 - 1 * 10 + 100) / 200 * 100) with 50 by lra.
  minmax_cases; lra.
Qed.

(** [validate_prayers] produces flags that are 0 or 1. *)
Lemma validate_prayers_flags (p : dict bool) :
  Forall (fun kv => snd kv = 0%Z \/ snd kv = 1%Z) (Validation.validate_prayers p).
Proof.
  unfold Validation.validate_prayers. apply Forall_forall. intros kv Hin.
  apply in_map_iff in Hin as (name & <- & _). simpl.
  destruct (get_default p name false); auto.
Qed.

(** ** Charitable giving *)

(** What [score_sadaqah] returns on a positive amount without log scaling. *)
Lemma score_sadaqah_linear (amount log_base mdp : R) :
  0 < amount ->
  score_sadaqah amount false log_base mdp = Ok (Rmin 100 (amount / 1000 * 100)).
Proof.
  intros Ha. unfold score_sadaqah.
  assert (Hmax : Rmax 0 amount = amount) by (unfold Rmax; destruct (Rle_dec 0 amount); lra).
  rewrite Hmax. destruct (Rle_dec amount 0); [lra |].
  simpl. rewrite truediv_ok by lra. reflexivity.
Qed.

(** On a positive amount with log scaling the base cancels. *)
Lemma score_sadaqah_log (amount log_base mdp : R) :
  0 < amount -> 0 < log_base -> log_base <> 1 ->
  score_sadaqah amount true log_base mdp
  = Ok (Rmin 100 (ln (amount + 1) / ln (1000 + 1) * 100)).
Proof.
  intros Ha Hb Hb1. unfold score_sadaqah.
  assert (Hmax : Rmax 0 amount = amount) by (unfold Rmax; destruct (Rle_dec 0 amount); lra).
  rewrite Hmax. destruct (Rle_dec amount 0); [lra |].
  unfold math_log.
  destruct (Rle_dec (amount + 1) 0); [lra |].
  destruct (Rle_dec log_base 0); [lra |].
  destruct (Req_dec_T log_base 1); [contradiction |].
  destruct (Rle_dec (1000 + 1) 0); [lra |].
  simpl.
  pose proof (ln_neq_0 log_base Hb1 Hb) as Hl.
  pose proof ln_1001_pos as H1001.
  rewrite truediv_ok.
  - simpl.
    replace (ln (amount + 1) / ln log_base / (ln (1000 + 1) / ln log_base))
      with (ln (amount + 1) / ln (1000 + 1)) by (field; split; lra).
    reflexivity.
  - intros Hz. apply Rmult_integral in Hz as [Hz | Hz]; [lra |].
    apply Rinv_neq_0_compat in Hl. contradiction.
Qed.

Lemma score_sadaqah_nonpositive (amount : R) (log_scale : bool) (log_base mdp : R) :
  amount <= 0 -> score_sadaqah amount log_scale log_base mdp = Ok 0.
Proof.
  intros Ha. unfold score_sadaqah.
  assert (Hmax : Rmax 0 amount = 0) by (unfold Rmax; destruct (Rle_dec 0 amount); lra).
  rewrite Hmax. destruct (Rle_dec 0 0); [reflexivity | lra].
Qed.

(** With log scaling on, a positive amount is scored only for a base that
    is positive and different from 1. *)
Lemma score_sadaqah_log_returns_inv (amount log_base mdp s : R) :
  0 < amount ->
  score_sadaqah amount true log_base mdp = Ok s ->
  0 < log_base /\ log_base <> 1.
Proof.
  intros Ha. unfold score_sadaqah.
  assert (Hmax : Rmax 0 amount = amount) by (unfold Rmax; destruct (Rle_dec 0 amount); lra).
  rewrite Hmax. destruct (Rle_dec amount 0); [lra |].
  unfold math_log.
  destruct (Rle_dec (amount + 1) 0); [lra |].
  destruct (Rle_dec log_base 0); [simpl; discriminate |].
  destruct (Req_dec_T log_base 1); [simpl; discriminate |].
  intros _. split; lra.
Qed.

Lemma sadaqah_value_nonneg (amount : R) (log_scale : bool) :
  0 <= amount -> 0 <= sadaqah_value amount log_scale.
Proof.
  intros Ha. unfold sadaqah_value. pose proof ln_1001_pos as H1001.
  destruct log_scale; apply Rmin_glb; try lra.
  pose proof (ln_nonneg (amount + 1) ltac:(lra)) as Hl.
  apply Rmult_le_pos; [| lra].
  apply Rmult_le_pos; [lra |]. left. now apply Rinv_0_lt_compat.
Qed.

Lemma sadaqah_value_mono (a b : R) (log_scale : bool) :
  0 <= a -> a <= b -> sadaqah_value a log_scale <= sadaqah_value b log_scale.
Proof.
  intros Ha Hab. unfold sadaqah_value. pose proof ln_1001_pos as H1001.
  destruct log_scale; apply Rle_min_compat_l.
  - pose proof (ln_le_mono (a + 1) (b + 1) ltac:(lra) ltac:(lra)) as Hl.
    apply Rmult_le_compat_r; [lra |].
    apply Rmult_le_compat_r; [| exact Hl].
    left. now apply Rinv_0_lt_compat.
  - lra.
Qed.

Lemma score_sadaqah_positive (amount : R) (log_scale : bool) (log_base mdp : R) :
  0 < amount -> valid_log_policy log_scale log_base ->
  score_sadaqah amount log_scale log_base mdp = Ok (sadaqah_value amount log_scale).
Proof.
  intros Ha [-> | [Hb Hb1]].
  - now apply score_sadaqah_linear.
  - destruct log_scale.
    + now apply score_sadaqah_log.
    + now apply score_sadaqah_linear.
Qed.

(** C9.  With the policy fixed and [a <= b]: whenever the larger amount
    is scored, so is the smaller one, and its score is not larger; and under
    any policy whose logarithm is defined (log scaling off, or a positive
    base other than 1) both amounts are scored, in that order. *)
Theorem score_sadaqah_monotone :
  forall (log_scale : bool) (log_base max_daily_points a b : R),
    a <= b ->
    (forall sb, score_sadaqah b log_scale log_base max_daily_points = Ok sb ->
       exists sa, score_sadaqah a log_scale log_base max_daily_points = Ok sa /\ sa <= sb)
    /\ (valid_log_policy log_scale log_base ->
        exists sa sb,
          score_sadaqah a log_scale log_base max_daily_points = Ok sa
          /\ score_sadaqah b log_scale log_base max_daily_points = Ok sb
          /\ sa <= sb).
Proof.
  intros ls lb mdp a b Hab.
  assert (Hvalid : valid_log_policy ls lb ->
            exists sa sb, score_sadaqah a ls lb mdp = Ok sa
                          /\ score_sadaqah b ls lb mdp = Ok sb /\ sa <= sb).
  { intros Hv.
    destruct (Rle_dec b 0) as [Hb | Hb].
    - exists 0, 0. rewrite !score_sadaqah_nonpositive by lra. repeat split; lra.
    - destruct (Rle_dec a 0) as [Ha | Ha].
      + exists 0, (sadaqah_value b ls).
        rewrite score_sadaqah_nonpositive by lra.
        rewrite score_sadaqah_positive by (auto; lra).
        repeat split. apply sadaqah_value_nonneg. lra.
      + exists (sadaqah_value a ls), (sadaqah_value b ls).
        rewrite !score_sadaqah_positive by (auto; lra).
        repeat split. apply sadaqah_value_mono; lra. }
  split; [| exact Hvalid].
  intros sb Hsb.
  destruct (Rle_dec b 0) as [Hb | Hb].
  - exists 0. rewrite score_sadaqah_nonpositive in * by lra.
    inversion Hsb. split; [reflexivity | lra].
  - assert (Hv : valid_log_policy ls lb).
    { destruct ls; [right | now left].
      eapply score_sadaqah_log_returns_inv; [| exact Hsb]. lra. }
    destruct (Hvalid Hv) as (sa & sb' & Hsa & Hsb' & Hle).
    exists sa. split; [exact Hsa |]. congruence.
Qed.

Lemma score_sadaqah_monotone_witness :
  5 <= 50
  /\ valid_log_policy true 10
  /\ exists sa sb,
       score_sadaqah 5 true 10 100 = Ok sa
       /\ score_sadaqah 50 true 10 100 = Ok sb
       /\ sa <= sb.
Proof.
  assert (Hab : 5 <= 50) by lra.
  assert (Hv : valid_log_policy true 10) by (right; split; lra).
  split; [exact Hab |]. split; [exact Hv |].
  exact (proj2 (score_sadaqah_monotone true 10 100 5 50 Hab) Hv).
Defined.

(** C10.  [max_daily_points] does not enter the result of
    [score_sadaqah], be it a score or an exception. *)
Theorem score_sadaqah_ignores_max_daily_points :
  forall (amount : R) (log_scale : bool) (log_base a b : R),
    score_sadaqah amount log_scale log_base a
    = score_sadaqah amount log_scale log_base b.
Proof. intros. reflexivity. Qed.

(** ** The aggregator *)

Lemma fold_left_Rplus_acc (xs : list R) (a : R) :
  fold_left Rplus xs a = a + fold_left Rplus xs 0.
Proof.
  revert a. induction xs as [| x xs IH]; intros a; simpl.
  - lra.
  - rewrite IH, (IH (0 + x)). lra.
Qed.

Lemma sum_nil : Py.sum [] = 0.
Proof. reflexivity. Qed.

Lemma sum_cons (x : R) (xs : list R) : Py.sum (x :: xs) = x + Py.sum xs.
Proof. unfold Py.sum. simpl. rewrite fold_left_Rplus_acc. lra. Qed.

Lemma sum_scale (k : R) (xs : list R) :
  Py.sum (map (Rmult k) xs) = k * Py.sum xs.
Proof.
  induction xs as [| x xs IH]; simpl.
  - rewrite sum_nil. lra.
  - rewrite !sum_cons, IH. lra.
Qed.

Lemma sum_nonneg (xs : list R) : Forall (Rle 0) xs -> 0 <= Py.sum xs.
Proof.
  induction 1 as [| x xs Hx _ IH].
  - rewrite sum_nil. lra.
  - rewrite sum_cons. lra.
Qed.

Lemma sum_zero_all_zero (xs : list R) :
  Forall (Rle 0) xs -> Py.sum xs = 0 -> Forall (eq 0) xs.
Proof.
  induction 1 as [| x xs Hx Hxs IH]; intros Hs.
  - constructor.
  - rewrite sum_cons in Hs. pose proof (sum_nonneg xs Hxs) as Hn.
    constructor; [lra | apply IH; lra].
Qed.

Lemma weights_of_scale (k : R) (weights : dict R) :
  map snd (scale_weights k weights) = map (Rmult k) (map snd weights).
Proof. unfold scale_weights. rewrite !map_map. reflexivity. Qed.

(** Scaling by any non-zero factor leaves the composite unchanged when the
    weights do not sum to zero. *)
Lemma weighted_baraka_score_scale_nonzero_sum (components weights : dict R) (k : R) :
  k <> 0 -> Py.sum (map snd weights) <> 0 ->
  weighted_baraka_score components (scale_weights k weights)
  = weighted_baraka_score components weights.
Proof.
  intros Hk Hs. unfold weighted_baraka_score.
  rewrite weights_of_scale, sum_scale.
  destruct (Req_dec_T (k * Py.sum (map snd weights)) 0) as [Hz | _].
  - apply Rmult_integral in Hz. tauto.
  - destruct (Req_dec_T (Py.sum (map snd weights)) 0) as [Hz | _]; [contradiction |].
    do 2 f_equal. unfold scale_weights. rewrite map_map.
    apply map_ext. intros [key w]. simpl. field. split; assumption.
Qed.

(** Weights that are all zero are their own multiples. *)
Lemma scale_weights_zero (weights : dict R) (k : R) :
  Forall (eq 0) (map snd weights) -> scale_weights k weights = weights.
Proof.
  unfold scale_weights. induction weights as [| [key w] ws IH]; simpl; intros H.
  - reflexivity.
  - inversion H as [| ? ? Hw Hws]; subst. rewrite IH by assumption.
    f_equal. f_equal. lra.
Qed.




(** With signed weights that cancel, the sum is replaced by 1 on both sides
    and the composite scales with the weights. *)
Example weighted_baraka_score_signed_weights :
  weighted_baraka_score [("prayer_on_time", 10)]
    [("prayer_on_time", 1); ("dhikr", -1)] = Ok 10
  /\ weighted_baraka_score [("prayer_on_time", 10)]
       (scale_weights 2 [("prayer_on_time", 1); ("dhikr", -1)]) = Ok 20.
Proof.
  unfold weighted_baraka_score, scale_weights, get_default. simpl.
  unfold Py.sum. simpl.
  split.
  - destruct (Req_dec_T (0 + 1 + -1) 0) as [_ | H]; [| exfalso; apply H; lra].
    f_equal. lra.
  - destruct (Req_dec_T (0 + 2 * 1 + 2 * -1) 0) as [_ | H]; [| exfalso; apply H; lra].
    f_equal. lra.
Qed.

(** ** Bounds of the component scorers *)

Lemma ratio_nonneg (d t : R) : 0 <= d -> 0 < t -> 0 <= d / t * 100.
Proof.
  intros Hd Ht. pose proof (Rinv_0_lt_compat t Ht) as Hi.
  unfold Rdiv. apply Rmult_le_pos; [| lra]. apply Rmult_le_pos; lra.
Qed.

Lemma ratio_le_100 (d t : R) : d <= t -> 0 < t -> d / t * 100 <= 100.
Proof.
  intros Hd Ht. pose proof (Rinv_0_lt_compat t Ht) as Hi.
  assert (Hq : d / t <= 1).
  { unfold Rdiv. replace 1 with (t * / t) by (field; lra).
    apply Rmult_le_compat_r; lra. }
  lra.
Qed.

Lemma capped_ratio_bounded (d t : R) :
  0 <= d -> 0 < t -> bounded (q <- truediv d t ;; Ok (Rmin 100 (q * 100))).
Proof.
  intros Hd Ht. rewrite truediv_ok by (apply Rgt_not_eq; lra). simpl.
  exists (Rmin 100 (d / t * 100)). split; [reflexivity |].
  pose proof (ratio_nonneg d t Hd Ht).
  split; [apply Rmin_glb; lra | apply Rmin_l].
Qed.

Lemma flags_sum_bounds (p : dict Z) (acc : Z) :
  Forall (fun kv => snd kv = 0%Z \/ snd kv = 1%Z) p ->
  (acc <= fold_left Z.add (map snd p) acc <= acc + Z.of_nat (List.length p))%Z.
Proof.
  intros H. revert acc. induction H as [| kv p Hkv _ IH]; intros acc; simpl List.length; simpl.
  - lia.
  - specialize (IH (acc + snd kv)%Z). lia.
Qed.

Lemma score_prayer_unfold (p : dict Z) :
  p <> [] ->
  score_prayer p
  = (q <- truediv (IZR (fold_left Z.add (map snd p) 0%Z))
                  (IZR (Z.of_nat (List.length p))) ;;
     Ok (q * 100)).
Proof. destruct p; [congruence | reflexivity]. Qed.

Lemma score_prayer_bounded (p : dict Z) :
  Forall (fun kv => snd kv = 0%Z \/ snd kv = 1%Z) p -> bounded (score_prayer p).
Proof.
  intros H. destruct p as [| kv p'].
  - exists 0. split; [reflexivity | lra].
  - rewrite score_prayer_unfold by discriminate.
    assert (Hlen : (1 <= Z.of_nat (List.length (kv :: p')))%Z)
      by (simpl List.length; lia).
    remember (kv :: p') as p eqn:Ep. clear Ep.
    pose proof (flags_sum_bounds p 0 H) as [Hlo Hhi].
    rewrite Z.add_0_l in Hhi.
    apply IZR_le in Hlen, Hlo, Hhi.
    rewrite truediv_ok by (apply Rgt_not_eq; lra). simpl bind.
    eexists. split; [reflexivity |]. split.
    + apply ratio_nonneg; lra.
    + apply ratio_le_100; lra.
Qed.

Section QuranBounds.

Variable NAME_TO_AYAH : string -> option Z.
Hypothesis table_ok : table_nonneg NAME_TO_AYAH.

Lemma ayat_of_nonneg (r : Recitation) :
  match ayahs r with Some a => (0 <= a)%Z | None => True end ->
  (0 <= ayat_of NAME_TO_AYAH r)%Z.
Proof.
  intros Ha. unfold ayat_of, surah_total.
  destruct (ayahs r) as [a |].
  - destruct (Z.eqb_spec a 0); [| exact Ha].
    destruct (surah r) as [s |]; [| lia].
    destruct (NAME_TO_AYAH s) eqn:E; [eapply table_ok; eauto | lia].
  - simpl. destruct (surah r) as [s |]; [| lia].
    destruct (NAME_TO_AYAH s) eqn:E; [eapply table_ok; eauto | lia].
Qed.

Lemma quran_points_nonneg (rs : list Recitation) (base acc : R) :
  Forall (fun r => match ayahs r with Some a => (0 <= a)%Z | None => True end) rs ->
  0 <= base -> 0 <= acc ->
  0 <= fold_left (fun pts r => pts + IZR (ayat_of NAME_TO_AYAH r) * base) rs acc.
Proof.
  intros H Hb. revert acc. induction H as [| r rs Hr _ IH]; intros acc Hacc; simpl.
  - exact Hacc.
  - apply IH. apply ayat_of_nonneg in Hr. apply IZR_le in Hr.
    pose proof (Rmult_le_pos _ _ Hr Hb). lra.
Qed.

Lemma score_quran_bounded (rs : list Recitation) (base m : R) :
  Forall (fun r => match ayahs r with Some a => (0 <= a)%Z | None => True end) rs ->
  0 <= base -> 0 < m -> bounded (score_quran NAME_TO_AYAH rs base m).
Proof.
  intros H Hb Hm. unfold score_quran. destruct rs as [| r rs'] eqn:E.
  - exists 0. split; [reflexivity | lra].
  - rewrite <- E in *. apply capped_ratio_bounded; [| exact Hm].
    apply quran_points_nonneg; [assumption | assumption | lra].
Qed.

End QuranBounds.

Lemma score_dhikr_bounded (reps : Z) (ppr m : R) :
  (0 <= reps)%Z -> 0 <= ppr -> 0 < m -> bounded (score_dhikr reps ppr m).
Proof.
  intros Hr Hp Hm. unfold score_dhikr. apply capped_ratio_bounded; [| exact Hm].
  apply IZR_le in Hr. apply Rmult_le_pos; assumption.
Qed.

Lemma sadaqah_value_le_100 (amount : R) (log_scale : bool) :
  sadaqah_value amount log_scale <= 100.
Proof. unfold sadaqah_value. destruct log_scale; apply Rmin_l. Qed.

Lemma score_sadaqah_bounded (amount : R) (ls : bool) (lb m : R) :
  valid_log_policy ls lb -> bounded (score_sadaqah amount ls lb m).
Proof.
  intros Hv. destruct (Rle_dec amount 0) as [Ha | Ha].
  - rewrite score_sadaqah_nonpositive by exact Ha. exists 0. split; [reflexivity | lra].
  - rewrite score_sadaqah_positive by (auto; lra).
    eexists. split; [reflexivity |]. split.
    + apply sadaqah_value_nonneg. lra.
    + apply sadaqah_value_le_100.
Qed.

Lemma minmax_bounds (value min_v max_v : R) : 0 <= minmax value min_v max_v <= 100.
Proof. unfold minmax. minmax_cases; lra. Qed.

Lemma bedtime_bonus_cases (clock : string -> option nat) (bedtime : option string)
    (before : string) :
  bedtime_bonus clock bedtime before = 0 \/ bedtime_bonus clock bedtime before = 10.
Proof.
  unfold bedtime_bonus.
  destruct bedtime as [b |]; [| now left].
  destruct (String.eqb b ""); [now left |].
  destruct (clock b); [| now left].
  destruct (clock before); [| now left].
  destruct (Nat.leb _ _); [now right | now left].
Qed.

Lemma score_sleep_bounded (clock : string -> option nat) (hours : option R)
    (bedtime : option string) (lo hi : R) (before : string) (m : R) :
  bounded (score_sleep clock hours bedtime lo hi before m).
Proof.
  unfold score_sleep. cbv zeta. eexists. split; [reflexivity |].
  match goal with |- context [Rmax 0 ?c] => generalize c end. intros core.
  pose proof (Rmax_l 0 core) as Hcore.
  destruct (bedtime_bonus_cases clock bedtime before) as [-> | ->];
    (split; [apply Rmin_glb; lra | apply Rmin_l]).
Qed.

Lemma score_screen_time_bounded (am : dict R) (cfg : ScreenCfg) :
  productive_apps cfg <> None -> distracting_apps cfg <> None ->
  max_daily_minutes cfg <> None ->
  bounded (score_screen_time am cfg).
Proof.
  intros Hp Hd Hm. unfold score_screen_time.
  destruct am as [| kv am']; [exists 50; split; [reflexivity | lra] |].
  destruct (productive_apps cfg) as [pa |]; [| contradiction].
  destruct (distracting_apps cfg) as [da |]; [| contradiction].
  destruct (max_daily_minutes cfg) as [mdm |]; [| contradiction].
  set (prod := minutes_in pa _). set (dist := minutes_in da _).
  assert (H1 : Rmax (prod + dist) 1 <> 0) by (pose proof (Rmax_r (prod + dist) 1); lra).
  assert (H2 : Rmax 1 mdm <> 0) by (pose proof (Rmax_l 1 mdm); lra).
  rewrite truediv_ok by exact H1. simpl bind.
  rewrite truediv_ok by exact H2. simpl bind.
  cbv zeta. eexists. split; [reflexivity |].
  match goal with |- context [Rmax 0 (Rmin 1 ?c)] => generalize c end.
  clear. intros c. minmax_cases; lra.
Qed.

Lemma score_other_bounded (g b : Z) (gp bp : R) : bounded (score_other g b gp bp).
Proof.
  unfold score_other. cbv zeta. eexists. split; [reflexivity |].
  match goal with |- context [Rmin 100 ?c] => generalize c end.
  clear. intros c. minmax_cases; lra.
Qed.

(** On the inputs of [in_domain] every scorer of the exact model returns a
    score within the component range. *)
Lemma run_bounded (table : string -> option Z) (clock : string -> option nat)
    (c : call) :
  in_domain table c -> bounded (run table clock c).
Proof.
  intros Hc. destruct c; simpl in *.
  - now apply score_prayer_bounded.
  - destruct Hc as (Hrs & Ht & Hb & Hm). now apply score_quran_bounded.
  - destruct Hc as (Hr & Hp & Hm). now apply score_dhikr_bounded.
  - destruct Hc as (_ & Hv). now apply score_sadaqah_bounded.
  - apply score_sleep_bounded.
  - destruct Hc as (_ & Hp & Hd & Hm). now apply score_screen_time_bounded.
  - apply score_other_bounded.
Qed.




(** ** Which entry points return *)

Lemma score_prayer_returns (p : dict Z) : returns (score_prayer p).
Proof.
  destruct p as [| kv p'].
  - exists 0. reflexivity.
  - rewrite score_prayer_unfold by discriminate.
    rewrite truediv_ok; [eexists; reflexivity |].
    apply not_0_IZR. simpl List.length. lia.
Qed.

Lemma score_quran_returns_iff (table : string -> option Z) (rs : list Recitation)
    (base m : R) :
  returns (score_quran table rs base m) <-> rs = [] \/ m <> 0.
Proof.
  unfold score_quran. destruct rs as [| r rs'].
  - split; [now left | intros _; exists 0; reflexivity].
  - split.
    + intros [s Hs]. right. intros ->. rewrite truediv_zero in Hs. discriminate.
    + intros [H | H]; [discriminate |]. rewrite truediv_ok by exact H.
      eexists. reflexivity.
Qed.

Lemma score_dhikr_returns_iff (reps : Z) (ppr m : R) :
  returns (score_dhikr reps ppr m) <-> m <> 0.
Proof.
  unfold score_dhikr. split.
  - intros [s Hs] ->. rewrite truediv_zero in Hs. discriminate.
  - intros H. rewrite truediv_ok by exact H. eexists. reflexivity.
Qed.

Lemma score_sadaqah_returns_iff (a : R) (ls : bool) (lb m : R) :
  returns (score_sadaqah a ls lb m) <-> a <= 0 \/ valid_log_policy ls lb.
Proof.
  split.
  - intros [s Hs]. destruct (Rle_dec a 0) as [Ha | Ha]; [now left | right].
    destruct ls; [right | now left].
    eapply score_sadaqah_log_returns_inv; [| exact Hs]. lra.
  - intros [Ha | Hv].
    + rewrite score_sadaqah_nonpositive by exact Ha. eexists. reflexivity.
    + destruct (score_sadaqah_bounded a ls lb m Hv) as (s & Hs & _). now exists s.
Qed.

Lemma score_screen_time_returns_iff (am : dict R) (cfg : ScreenCfg) :
  returns (score_screen_time am cfg)
  <-> am = [] \/ (productive_apps cfg <> None /\ distracting_apps cfg <> None
                  /\ max_daily_minutes cfg <> None).
Proof.
  split.
  - intros [s Hs]. destruct am as [| kv am']; [now left | right].
    unfold score_screen_time in Hs.
    destruct (productive_apps cfg); [| discriminate].
    destruct (distracting_apps cfg); [| discriminate].
    destruct (max_daily_minutes cfg).
    + repeat split; discriminate.
    + destruct (truediv _ _); discriminate.
  - intros [-> | (Hp & Hd & Hm)].
    + exists 50. reflexivity.
    + destruct (score_screen_time_bounded am cfg Hp Hd Hm) as (s & Hs & _). now exists s.
Qed.

Lemma run_returns_iff (table : string -> option Z) (clock : string -> option nat)
    (c : call) :
  returns (run table clock c) <-> defined_on c.
Proof.
  destruct c; simpl.
  - split; [trivial | intros _; apply score_prayer_returns].
  - apply score_quran_returns_iff.
  - apply score_dhikr_returns_iff.
  - apply score_sadaqah_returns_iff.
  - split; [trivial | intros _; eexists; reflexivity].
  - apply score_screen_time_returns_iff.
  - split; [trivial | intros _; eexists; reflexivity].
Qed.

Lemma split_minutes_returns (cfg : value) (m : dict R) :
  returns (screen_apps cfg "productive_apps") ->
  returns (screen_apps cfg "distracting_apps") ->
  split_minutes cfg m
  = Ok (split_minutes_loop
          (match screen_apps cfg "productive_apps" with Ok l => l | Raise _ => [] end)
          (match screen_apps cfg "distracting_apps" with Ok l => l | Raise _ => [] end) m).
Proof.
  intros [pl Hp] [dl Hd]. unfold split_minutes. rewrite Hp, Hd. reflexivity.
Qed.

Lemma feature_rows_returns (cfg : value) (dated : list (string * RawLogEntry)) :
  returns (screen_apps cfg "productive_apps") ->
  returns (screen_apps cfg "distracting_apps") ->
  returns (feature_rows cfg dated).
Proof.
  intros Hp Hd. induction dated as [| [d e] rest [rs IH]]; simpl.
  - eexists. reflexivity.
  - unfold feature_row. rewrite split_minutes_returns by assumption. simpl.
    rewrite IH. simpl. eexists. reflexivity.
Qed.

Lemma build_features_returns (to_date : list string -> result (list string))
    (argsort : list string -> list nat) (cfg : value) (logs : list RawLogEntry)
    (dates : list string) :
  to_date (map Entry.date logs) = Ok dates ->
  returns (screen_apps cfg "productive_apps") ->
  returns (screen_apps cfg "distracting_apps") ->
  returns (build_features to_date argsort cfg logs).
Proof.
  intros Hdates Hp Hd. unfold build_features. destruct logs as [| e logs'].
  - eexists. reflexivity.
  - rewrite Hdates. simpl bind.
    destruct (feature_rows_returns cfg (combine dates (e :: logs')) Hp Hd) as [rs Hrs].
    rewrite Hrs. simpl. eexists. reflexivity.
Qed.


Lemma example_cfg_apps :
  returns (screen_apps example_cfg "productive_apps")
  /\ returns (screen_apps example_cfg "distracting_apps").
Proof. split; eexists; reflexivity. Qed.

Lemma blank_entry_int64 (d : string) : Range.entry_int64 (blank_entry d).
Proof. unfold Range.entry_int64, Range.int64. simpl. repeat split; try lia. constructor. Qed.



(** ** The components computed by the pipeline *)

Ltac invert_binds H :=
  repeat (let x := fresh "x" in
          let Hx := fresh "Hx" in
          apply bind_inv in H; destruct H as (x & Hx & H); cbv beta in H).

Section Components.

Variable _to_time : string -> option nat.

(** What a successful run of [calculate_score_components] has read from the
    configuration and put into the component mapping. *)
Lemma calculate_score_components_inv (row : FeatureRecord) (cfg : value)
    (comps : dict R) :
  calculate_score_components _to_time row cfg = Ok comps ->
  exists quran_cfg quran_max screen_cfg mdm other_cfg good_points bad_points st,
    getitem cfg "quran" = Ok quran_cfg
    /\ num_item quran_cfg "max_daily_points" = Ok quran_max
    /\ quran_max <> 0
    /\ get comps "quran_recitation"
       = Some (Rmin 100 (IZR (Row.quran_items row) / quran_max * 100))
    /\ getitem cfg "screen_time" = Ok screen_cfg
    /\ num_item screen_cfg "max_daily_minutes" = Ok mdm
    /\ score_screen_time
         [("productive", Row.prod_minutes row); ("distracting", Row.dist_minutes row)]
         {| productive_apps := Some ["productive"];
            distracting_apps := Some ["distracting"];
            max_daily_minutes := Some mdm |} = Ok st
    /\ get comps "screen_time" = Some st
    /\ getitem cfg "other" = Ok other_cfg
    /\ num_item other_cfg "good_points" = Ok good_points
    /\ num_item other_cfg "bad_points" = Ok bad_points
    /\ get comps "other_good" = Some (other_good_only row good_points)
    /\ get comps "other_bad" = Some (other_bad_only row bad_points).
Proof.
  intros H. unfold calculate_score_components in H. cbv zeta in H.
  invert_binds H.
  inversion H; subst comps; clear H.
  apply truediv_inv in Hx1 as [Hmax Hq]. subst x1.
  assert (x24 = x21) by congruence. assert (x25 = x22) by congruence. subst x24 x25.
  unfold score_other in Hx23, Hx26. cbv zeta in Hx23, Hx26.
  inversion Hx23 as [Hg]. inversion Hx26 as [Hb]. clear Hx23 Hx26.
  exists x, x0, x17, x18, x20, x21, x22, x19.
  repeat (split; [first [assumption | reflexivity] |]).
  split.
  - simpl. f_equal. unfold other_good_only. do 2 f_equal. lra.
  - simpl. f_equal. unfold other_bad_only. do 2 f_equal. lra.
Qed.

(** Under the example configuration the components of every feature row are
    computed. *)
Lemma calculate_score_components_example_returns (row : FeatureRecord) :
  returns (calculate_score_components _to_time row example_cfg).
Proof.
  unfold calculate_score_components, example_cfg, num_item, str_item.
  cbn [getitem get String.eqb Ascii.eqb Bool.eqb bind as_num truthy].
  rewrite truediv_ok by lra. cbn [bind].
  rewrite truediv_ok by lra. cbn [bind].
  destruct (score_sadaqah_bounded (Row.sadaqah_amount row) true 10 100)
    as (sad & -> & _); [right; split; lra |].
  cbn [bind]. unfold score_sleep. cbn [bind].
  match goal with
  | |- context [score_screen_time ?am ?c] =>
      destruct (score_screen_time_bounded am c) as (st & -> & _);
        try discriminate
  end.
  cbn [bind]. unfold score_other. cbn [bind].
  eexists. reflexivity.
Qed.

(** With no productive and no distracting minutes the screen-time scorer,
    called on the two-key mapping the pipeline builds, gives 40. *)
Lemma score_screen_time_zero_minutes (mdm : R) :
  score_screen_time [("productive", 0); ("distracting", 0)]
    {| productive_apps := Some ["productive"];
       distracting_apps := Some ["distracting"];
       max_daily_minutes := Some mdm |} = Ok 40.
Proof.
  unfold score_screen_time, minutes_in. simpl. unfold Py.sum. simpl.
  assert (H1 : Rmax (0 + 0 + (0 + 0)) 1 = 1) by (unfold Rmax; destruct (Rle_dec _ _); lra).
  rewrite H1. rewrite truediv_ok by lra. simpl.
  assert (H2 : Rmax 1 mdm <> 0) by (pose proof (Rmax_l 1 mdm); lra).
  rewrite truediv_ok by exact H2. simpl.
  f_equal.
  replace ((0 + 0) / Rmax 1 mdm) with 0 by (field; exact H2).
  replace ((0 + 0) / 1) with 0 by field.
  minmax_cases; lra.
Qed.

End Components.

(** ** From an entry to its components *)

Lemma feature_row_inv (cfg : value) (d : string) (e : RawLogEntry) (row : FeatureRecord) :
  feature_row cfg d e = Ok row ->
  exists split,
    split_minutes cfg (app_minutes e) = Ok split
    /\ Row.date row = d
    /\ quran_items row = quran_items_of (quran_recs e)
    /\ prod_minutes row = fst split
    /\ dist_minutes row = snd split
    /\ Row.other_good row = Entry.other_good e
    /\ Row.other_bad row = Entry.other_bad e
    /\ Row.dhikr_reps row = Entry.dhikr_reps e.
Proof.
  unfold feature_row. intros H. apply bind_inv in H as (split & Hs & H).
  inversion H; subst row; clear H. exists split. simpl. repeat split. exact Hs.
Qed.

Lemma feature_row_returns (cfg : value) (d : string) (e : RawLogEntry) :
  returns (screen_apps cfg "productive_apps") ->
  returns (screen_apps cfg "distracting_apps") ->
  returns (feature_row cfg d e).
Proof.
  intros Hp Hd. unfold feature_row.
  rewrite split_minutes_returns by assumption. eexists. reflexivity.
Qed.

Lemma split_minutes_empty (cfg : value) (split : R * R) :
  split_minutes cfg [] = Ok split -> split = (0, 0).
Proof.
  unfold split_minutes. intros H. invert_binds H. inversion H. reflexivity.
Qed.

(** C2: what the code does.  The scorer itself answers 50 on an empty
    mapping; the pipeline never hands it one.  For an entry without any
    app minutes the feature row has 0 productive and 0 distracting minutes,
    [calculate_score_components] wraps them in a mapping with two keys, and
    the screen-time component is 40, under every configuration for which the
    components are computed. *)
Theorem pipeline_screen_time_without_data :
  (forall cfg : ScreenCfg, score_screen_time [] cfg = Ok 50)
  /\ (forall (_to_time : string -> option nat) (cfg : value) (d : string)
             (e : RawLogEntry) (row : FeatureRecord) (comps : dict R),
        app_minutes e = [] ->
        feature_row cfg d e = Ok row ->
        calculate_score_components _to_time row cfg = Ok comps ->
        get comps "screen_time" = Some 40).
Proof.
  split; [reflexivity |].
  intros clock cfg d e row comps Hempty Hrow Hcomps.
  apply feature_row_inv in Hrow as (split & Hsplit & _ & _ & Hprod & Hdist & _).
  rewrite Hempty in Hsplit. apply split_minutes_empty in Hsplit. subst split.
  simpl in Hprod, Hdist.
  apply calculate_score_components_inv in Hcomps
    as (_ & _ & _ & mdm & _ & _ & _ & st & _ & _ & _ & _ & _ & _ & Hst & Hget & _).
  rewrite Hprod, Hdist, score_screen_time_zero_minutes in Hst.
  inversion Hst. subst st. exact Hget.
Qed.

Lemma pipeline_screen_time_without_data_witness :
  exists row comps,
    app_minutes (blank_entry "2025-01-01") = []
    /\ feature_row example_cfg "2025-01-01" (blank_entry "2025-01-01") = Ok row
    /\ calculate_score_components (fun _ => None) row example_cfg = Ok comps
    /\ get comps "screen_time" = Some 40.
Proof.
  destruct example_cfg_apps as [Hp Hd].
  destruct (feature_row_returns example_cfg "2025-01-01" (blank_entry "2025-01-01") Hp Hd)
    as [row Hrow].
  destruct (calculate_score_components_example_returns (fun _ => None) row)
    as [comps Hcomps].
  exists row, comps.
  split; [reflexivity |]. split; [exact Hrow |]. split; [exact Hcomps |].
  exact (proj2 pipeline_screen_time_without_data (fun _ => None) example_cfg
           "2025-01-01" (blank_entry "2025-01-01") row comps eq_refl Hrow Hcomps).
Defined.

(** C1: what the code does.  For an entry whose only recitation names a
    surah of the reference table with ayah count 0, the feature builder
    adds up the explicit counts only: the recitation total of the row is 0,
    and so is the recitation component, under every configuration for which
    the components are computed.  [score_quran], which the pipeline does
    not call, credits the surah's [n] ayahs to the same item. *)
Theorem pipeline_recitation_whole_surah :
  forall (NAME_TO_AYAH : string -> option Z) (_to_time : string -> option nat)
         (cfg : value) (d s : string) (n : Z) (e : RawLogEntry)
         (row : FeatureRecord) (comps : dict R),
    NAME_TO_AYAH s = Some n ->
    (0 < n)%Z ->
    quran_recs e = [{| surah := Some s; ayahs := Some 0%Z |}] ->
    feature_row cfg d e = Ok row ->
    calculate_score_components _to_time row cfg = Ok comps ->
    quran_items row = 0%Z
    /\ get comps "quran_recitation" = Some 0
    /\ ayat_of NAME_TO_AYAH {| surah := Some s; ayahs := Some 0%Z |} = n.
Proof.
  intros table clock cfg d s n e row comps Hs Hn Hrecs Hrow Hcomps.
  apply feature_row_inv in Hrow as (_ & _ & _ & Hitems & _).
  rewrite Hrecs in Hitems.
  change (quran_items_of [{| surah := Some s; ayahs := Some 0%Z |}]) with 0%Z in Hitems.
  apply calculate_score_components_inv in Hcomps
    as (_ & qmax & _ & _ & _ & _ & _ & _ & _ & _ & Hqmax & Hget & _).
  split; [exact Hitems |]. split.
  - rewrite Hget, Hitems. f_equal.
    replace (0 / qmax * 100) with 0 by (field; exact Hqmax).
    minmax_cases; lra.
  - unfold ayat_of, surah_total. simpl. rewrite Hs. reflexivity.
Qed.

Lemma pipeline_recitation_whole_surah_witness :
  exists row comps,
    example_table "Al-Kahf" = Some 110%Z
    /\ (0 < 110)%Z
    /\ quran_recs (whole_surah_entry "2025-01-01" "Al-Kahf")
       = [{| surah := Some "Al-Kahf"; ayahs := Some 0%Z |}]
    /\ feature_row example_cfg "2025-01-01" (whole_surah_entry "2025-01-01" "Al-Kahf")
       = Ok row
    /\ calculate_score_components (fun _ => None) row example_cfg = Ok comps
    /\ quran_items row = 0%Z
    /\ get comps "quran_recitation" = Some 0
    /\ ayat_of example_table {| surah := Some "Al-Kahf"; ayahs := Some 0%Z |} = 110%Z.
Proof.
  destruct example_cfg_apps as [Hp Hd].
  destruct (feature_row_returns example_cfg "2025-01-01"
              (whole_surah_entry "2025-01-01" "Al-Kahf") Hp Hd) as [row Hrow].
  destruct (calculate_score_components_example_returns (fun _ => None) row)
    as [comps Hcomps].
  assert (Hn : (0 < 110)%Z) by lia.
  exists row, comps.
  split; [reflexivity |]. split; [exact Hn |]. split; [reflexivity |].
  split; [exact Hrow |]. split; [exact Hcomps |].
  exact (pipeline_recitation_whole_surah example_table (fun _ => None) example_cfg
           "2025-01-01" "Al-Kahf" 110 (whole_surah_entry "2025-01-01" "Al-Kahf")
           row comps eq_refl Hn eq_refl Hrow Hcomps).
Defined.

(** ** Other habits *)

(** C3, as amended.  Each of the two components is computed from its own
    count alone: other-good is
    clamp((good_count * good_points + 100) / 200 * 100, 0, 100) and other-bad
    is clamp((- bad_count * bad_points + 100) / 200 * 100, 0, 100), with the
    points read from the [other] section of the configuration. *)
Theorem other_components_separate :
  forall (_to_time : string -> option nat) (row : FeatureRecord) (cfg : value)
         (comps : dict R),
    calculate_score_components _to_time row cfg = Ok comps ->
    exists other_cfg good_points bad_points,
      getitem cfg "other" = Ok other_cfg
      /\ num_item other_cfg "good_points" = Ok good_points
      /\ num_item other_cfg "bad_points" = Ok bad_points
      /\ get comps "other_good" = Some (other_good_only row good_points)
      /\ get comps "other_bad" = Some (other_bad_only row bad_points).
Proof.
  intros clock row cfg comps H.
  apply calculate_score_components_inv in H
    as (_ & _ & _ & _ & oc & gp & bp & _ & _ & _ & _ & _ & _ & _ & _ & _
        & Hoc & Hgp & Hbp & Hgood & Hbad).
  exists oc, gp, bp. repeat split; assumption.
Qed.

Lemma other_components_separate_witness :
  exists comps other_cfg good_points bad_points,
    calculate_score_components (fun _ => None) (habits_row "2025-01-01" 1 1) example_cfg
    = Ok comps
    /\ getitem example_cfg "other" = Ok other_cfg
    /\ num_item other_cfg "good_points" = Ok good_points
    /\ num_item other_cfg "bad_points" = Ok bad_points
    /\ get comps "other_good"
       = Some (other_good_only (habits_row "2025-01-01" 1 1) good_points)
    /\ get comps "other_bad"
       = Some (other_bad_only (habits_row "2025-01-01" 1 1) bad_points).
Proof.
  destruct (calculate_score_components_example_returns (fun _ => None)
              (habits_row "2025-01-01" 1 1)) as [comps Hcomps].
  destruct (other_components_separate (fun _ => None) (habits_row "2025-01-01" 1 1)
              example_cfg comps Hcomps) as (oc & gp & bp & H).
  exists comps, oc, gp, bp. split; [exact Hcomps | exact H].
Defined.

(** Where one of the two counts is 0 the component of the other count is
    the value of the combined formula. *)
Lemma other_good_only_combined (row : FeatureRecord) (gp bp : R) :
  Row.other_bad row = 0%Z -> other_good_only row gp = other_combined row gp bp.
Proof.
  intros H. unfold other_good_only, other_combined. rewrite H.
  do 2 f_equal. lra.
Qed.

Lemma other_bad_only_combined (row : FeatureRecord) (gp bp : R) :
  Row.other_good row = 0%Z -> other_bad_only row bp = other_combined row gp bp.
Proof.
  intros H. unfold other_bad_only, other_combined. rewrite H.
  do 2 f_equal. lra.
Qed.

(** C3, as stated, fails: with one good and one bad habit at 10 points each
    the combined formula gives 50 for both components, and the pipeline
    gives 55 and 45. *)
Lemma other_components_not_combined :
  exists comps,
    calculate_score_components (fun _ => None) (habits_row "2025-01-01" 1 1) example_cfg
    = Ok comps
    /\ other_combined (habits_row "2025-01-01" 1 1) 10 10 = 50
    /\ get comps "other_good" = Some 55
    /\ get comps "other_bad" = Some 45
    /\ get comps "other_good"
       <> Some (other_combined (habits_row "2025-01-01" 1 1) 10 10)
    /\ get comps "other_bad"
       <> Some (other_combined (habits_row "2025-01-01" 1 1) 10 10).
Proof.
  destruct (calculate_score_components_example_returns (fun _ => None)
              (habits_row "2025-01-01" 1 1)) as [comps Hcomps].
  exists comps. split; [exact Hcomps |].
  apply calculate_score_components_inv in Hcomps
    as (_ & _ & _ & _ & oc & gp & bp & _ & _ & _ & _ & _ & _ & _ & _ & _
        & Hoc & Hgp & Hbp & Hgood & Hbad).
  cbn in Hoc. inversion Hoc; subst oc; clear Hoc.
  cbn in Hgp, Hbp. inversion Hgp; subst gp. inversion Hbp; subst bp.
  assert (Hc : other_combined (habits_row "2025-01-01" 1 1) 10 10 = 50).
  { unfold other_combined. simpl Row.other_good. simpl Row.other_bad.
    minmax_cases; lra. }
  assert (Hg : other_good_only (habits_row "2025-01-01" 1 1) 10 = 55).
  { unfold other_good_only. simpl Row.other_good. minmax_cases; lra. }
  assert (Hb : other_bad_only (habits_row "2025-01-01" 1 1) 10 = 45).
  { unfold other_bad_only. simpl Row.other_bad. minmax_cases; lra. }
  rewrite Hgood, Hbad, Hc, Hg, Hb.
  repeat split; try reflexivity; intros Heq; inversion Heq; lra.
Qed.

(** ** The model analyzer *)

Section Analyzer.

Variable pearson : list (option R) -> list (option R) -> option R.
Variable train_model : DataFrame -> list R -> result (R * R * list R).

Lemma get_map_keys {V W : Type} (f : string * V -> W) (d : dict V) (k : string) :
  get d k = None -> get (map (fun c => (fst c, f c)) d) k = None.
Proof.
  induction d as [| [k' v] d IH]; simpl; intros H.
  - reflexivity.
  - destruct (String.eqb k' k); [discriminate | auto].
Qed.

(** The correlation matrix has a column only for the numeric columns of the
    table it was computed from. *)
Lemma corr_avg_outcome_missing (df : DataFrame) :
  get (numeric_columns df) "avg_outcome" = None ->
  corr_avg_outcome (corr pearson df) = Raise (KeyError "avg_outcome").
Proof.
  intros H. unfold corr_avg_outcome, corr.
  rewrite (get_map_keys _ _ _ H). reflexivity.
Qed.

Lemma csv_frame_no_avg_outcome (feat : list FeatureRecord) :
  get (numeric_columns (csv_frame feat)) "avg_outcome" = None.
Proof.
  unfold csv_frame, numeric_columns. simpl.
  destruct (forallb _ feat); reflexivity.
Qed.

Lemma csv_frame_outcomes (feat : list FeatureRecord) :
  outcome_column (csv_frame feat) "clarity" = Ok (map (fun r => opt_num (Row.clarity r)) feat)
  /\ outcome_column (csv_frame feat) "focus" = Ok (map (fun r => opt_num (Row.focus r)) feat)
  /\ outcome_column (csv_frame feat) "calm" = Ok (map (fun r => opt_num (Row.calm r)) feat)
  /\ outcome_column (csv_frame feat) "productivity"
     = Ok (map (fun r => opt_num (Row.productivity r)) feat).
Proof. repeat split. Qed.

Lemma row_mean_some (r : FeatureRecord) :
  match row_mean [opt_num (Row.clarity r); opt_num (Row.focus r);
                  opt_num (Row.calm r); opt_num (Row.productivity r)] with
  | Some _ => has_outcome r = true
  | None => has_outcome r = false
  end.
Proof.
  unfold row_mean, has_outcome.
  destruct (Row.clarity r), (Row.focus r), (Row.calm r), (Row.productivity r);
    reflexivity.
Qed.

(** The rows kept by [dropna(subset=["avg_outcome"])] are the rows with an
    outcome. *)
Lemma kept_rows_count (feat : list FeatureRecord) :
  List.length
    (flat_map (fun a : option R => match a with Some x => [x] | None => [] end)
       (map row_mean
          (zip4 (map (fun r => opt_num (Row.clarity r)) feat)
                (map (fun r => opt_num (Row.focus r)) feat)
                (map (fun r => opt_num (Row.calm r)) feat)
                (map (fun r => opt_num (Row.productivity r)) feat))))
  = outcome_bearing feat.
Proof.
  unfold outcome_bearing. induction feat as [| r feat IH].
  - reflexivity.
  - cbn [map zip4 flat_map filter].
    pose proof (row_mean_some r) as Hr.
    destruct (row_mean _); rewrite Hr; simpl; rewrite <- IH; reflexivity.
Qed.

(** C7: what the code does.  The correlation matrix is computed before the
    column [avg_outcome] is added to the table, so it has no such column:
    on every table written by the feature builder with fewer than 10 rows
    that carry an outcome, [train_and_analyze] raises
    [KeyError("avg_outcome")] where the report with status
    [insufficient_data] was to be built. *)
Theorem train_and_analyze_insufficient_data_raises :
  forall feat : list FeatureRecord,
    (outcome_bearing feat < 10)%nat ->
    train_and_analyze pearson train_model (Some (csv_frame feat))
    = Raise (KeyError "avg_outcome").
Proof.
  intros feat Hfew. unfold train_and_analyze.
  destruct (csv_frame_outcomes feat) as (-> & -> & -> & ->).
  cbn [bind]. rewrite kept_rows_count.
  apply Nat.ltb_lt in Hfew. rewrite Hfew.
  rewrite corr_avg_outcome_missing by apply csv_frame_no_avg_outcome.
  reflexivity.
Qed.

(** With 10 rows or more the same lookup follows the fit: no table written
    by the feature builder yields a report. *)
Lemma train_and_analyze_never_reports (feat : list FeatureRecord) :
  ~ returns (train_and_analyze pearson train_model (Some (csv_frame feat))).
Proof.
  intros [report H]. unfold train_and_analyze in H.
  destruct (csv_frame_outcomes feat) as (Hc & Hf & Hca & Hp).
  rewrite Hc, Hf, Hca, Hp in H. cbn [bind] in H.
  rewrite kept_rows_count in H.
  rewrite corr_avg_outcome_missing in H by apply csv_frame_no_avg_outcome.
  destruct (Nat.ltb _ _); [discriminate |].
  destruct (train_model _ _) as [[[mean std] imp] |]; discriminate.
Qed.

(** Had the table a numeric column [avg_outcome], the report would be the
    one the claim describes. *)
Lemma train_and_analyze_insufficient_data (df : DataFrame)
    (clarity focus calm productivity : list (option R)) (c : dict R) :
  outcome_column df "clarity" = Ok clarity ->
  outcome_column df "focus" = Ok focus ->
  outcome_column df "calm" = Ok calm ->
  outcome_column df "productivity" = Ok productivity ->
  (List.length
     (flat_map (fun a : option R => match a with Some x => [x] | None => [] end)
        (map row_mean (zip4 clarity focus calm productivity))) < 10)%nat ->
  get (corr pearson df) "avg_outcome" = Some c ->
  train_and_analyze pearson train_model (Some df) = Ok (InsufficientData c).
Proof.
  intros Hc Hf Hca Hp Hfew Hcorr. unfold train_and_analyze.
  rewrite Hc, Hf, Hca, Hp. cbn [bind].
  apply Nat.ltb_lt in Hfew. rewrite Hfew.
  unfold corr_avg_outcome. rewrite Hcorr. reflexivity.
Qed.

End Analyzer.

Lemma train_and_analyze_insufficient_data_raises_witness :
  (outcome_bearing [rated_row "2025-01-01" 4; rated_row "2025-01-02" 3] < 10)%nat
  /\ train_and_analyze (fun _ _ => None) (fun _ _ => Raise ValueError)
       (Some (csv_frame [rated_row "2025-01-01" 4; rated_row "2025-01-02" 3]))
     = Raise (KeyError "avg_outcome").
Proof.
  assert (H : (outcome_bearing [rated_row "2025-01-01" 4; rated_row "2025-01-02" 3] < 10)%nat)
    by (vm_compute; lia).
  split; [exact H |].
  exact (train_and_analyze_insufficient_data_raises (fun _ _ => None)
           (fun _ _ => Raise ValueError) _ H).
Defined.

(** ** Duplicate dates *)

Lemma resubmitted_log_argsort :
  Numpy.argsort (map Entry.date resubmitted_log)
  = Some [0; 1; 2; 3; 4; 5; 6; 8; 7; 9; 10; 11; 12; 13; 14; 15; 16; 17]%nat.
Proof. vm_compute. reflexivity. Qed.

(** C8: what the code does.  On seventeen days logged in order, the eighth
    of them submitted twice in a row, the index sort behind [sort_values]
    puts the second submission (index 8) before the first one (index 7),
    and [drop_duplicates(keep="last")] then keeps the first: the row of
    2025-01-08 carries the 33 repetitions of the earlier entry, not the 100
    of the later one. *)
Theorem build_features_keeps_earlier_submission :
  Numpy.argsort (map Entry.date resubmitted_log)
  = Some [0; 1; 2; 3; 4; 5; 6; 8; 7; 9; 10; 11; 12; 13; 14; 15; 16; 17]%nat
  /\ keep_last (filter (fun e => String.eqb (Entry.date e) "2025-01-08") resubmitted_log)
     = [dhikr_entry "2025-01-08" 100]
  /\ exists feat,
       build_features iso_dates nargsort example_cfg resubmitted_log = Ok feat
       /\ map (fun r => (Row.date r, Row.dhikr_reps r)) feat
          = [("2025-01-01", 0); ("2025-01-02", 0); ("2025-01-03", 0);
             ("2025-01-04", 0); ("2025-01-05", 0); ("2025-01-06", 0);
             ("2025-01-07", 0); ("2025-01-08", 33); ("2025-01-09", 0);
             ("2025-01-10", 0); ("2025-01-11", 0); ("2025-01-12", 0);
             ("2025-01-13", 0); ("2025-01-14", 0); ("2025-01-15", 0);
             ("2025-01-16", 0); ("2025-01-17", 0)]%Z.
Proof.
  split; [exact resubmitted_log_argsort |].
  split; [reflexivity |].
  eexists. split.
  - unfold build_features, iso_dates. cbn [resubmitted_log bind map].
    cbn -[Rplus Rmult Rdiv IZR Rinv Rminus Ropp nargsort]. reflexivity.
  - unfold sort_values. cbn [map Row.date].
    change (nargsort _) with (nargsort (map Entry.date resubmitted_log)).
    unfold nargsort. rewrite resubmitted_log_argsort.
    reflexivity.
Qed.

(** [drop_duplicates("date", keep="last")] keeps, of the rows of each date,
    the one that comes last in the table it is applied to. *)
Lemma filter_none_of_existsb (rows : list FeatureRecord) (r : FeatureRecord) :
  existsb (fun r' => String.eqb (Row.date r') (Row.date r)) rows = false ->
  filter (has_date (Row.date r)) rows = [].
Proof.
  induction rows as [| r' rows IH]; simpl; intros H.
  - reflexivity.
  - apply orb_false_iff in H as [H1 H2]. unfold has_date at 1. rewrite H1. auto.
Qed.

Lemma filter_some_of_existsb (rows : list FeatureRecord) (r : FeatureRecord) :
  existsb (fun r' => String.eqb (Row.date r') (Row.date r)) rows = true ->
  filter (has_date (Row.date r)) rows <> [].
Proof.
  induction rows as [| r' rows IH]; simpl; intros H.
  - discriminate.
  - unfold has_date at 1. destruct (String.eqb (Row.date r') (Row.date r)).
    + discriminate.
    + simpl in H. auto.
Qed.

Lemma drop_duplicates_last_filter (rows : list FeatureRecord) (d : string) :
  filter (has_date d) (drop_duplicates_last rows)
  = keep_last (filter (has_date d) rows).
Proof.
  induction rows as [| r rows IH]; simpl.
  - reflexivity.
  - destruct (existsb _ rows) eqn:Hdup.
    + rewrite IH. destruct (has_date d r) eqn:Hd; [| reflexivity].
      apply String.eqb_eq in Hd. subst d.
      apply filter_some_of_existsb in Hdup.
      simpl. destruct (filter _ rows); [contradiction | reflexivity].
    + simpl. rewrite IH. destruct (has_date d r) eqn:Hd; [| reflexivity].
      apply String.eqb_eq in Hd. subst d.
      rewrite (filter_none_of_existsb rows r Hdup). reflexivity.
Qed.

Lemma keep_last_length {A : Type} (l : list A) : (List.length (keep_last l) <= 1)%nat.
Proof.
  induction l as [| x l IH]; simpl.
  - lia.
  - destruct l; [simpl; lia | exact IH].
Qed.

(** At most one row per date is left. *)
Lemma drop_duplicates_last_unique (rows : list FeatureRecord) (d : string) :
  (List.length (filter (has_date d) (drop_duplicates_last rows)) <= 1)%nat.
Proof. rewrite drop_duplicates_last_filter. apply keep_last_length. Qed.

Lemma feature_rows_each (cfg : value) (dated : list (string * RawLogEntry))
    (rows : list FeatureRecord) :
  feature_rows cfg dated = Ok rows ->
  Forall2 (fun de r => feature_row cfg (fst de) (snd de) = Ok r) dated rows.
Proof.
  revert rows. induction dated as [| [d e] dated IH]; simpl; intros rows H.
  - inversion H. constructor.
  - apply bind_inv in H as (r & Hr & H). apply bind_inv in H as (rs & Hrs & H).
    inversion H; subst rows. constructor; [exact Hr | auto].
Qed.

Section DuplicateDates.

Variable to_date_str : list string -> result (list string).
Variable argsort : list string -> list nat.

(** The table the feature builder returns: what the sort made of the rows
    built in submission order, without the earlier rows of each date. *)
Lemma build_features_unfold (cfg : value) (logs : list RawLogEntry)
    (dates : list string) (rows : list FeatureRecord) :
  logs <> [] ->
  to_date_str (map Entry.date logs) = Ok dates ->
  feature_rows cfg (combine dates logs) = Ok rows ->
  build_features to_date_str argsort cfg logs
  = Ok (drop_duplicates_last (sort_values argsort rows)).
Proof.
  intros Hne Hdates Hrows. unfold build_features.
  destruct logs; [congruence |]. rewrite Hdates. simpl bind.
  rewrite Hrows. reflexivity.
Qed.

(** Whatever the sort, a date has at most one row, and that row is the
    one the sort has put last among the rows of that date. *)
Lemma build_features_keeps_sorted_last (cfg : value) (logs : list RawLogEntry)
    (dates : list string) (rows : list FeatureRecord) (d : string) :
  logs <> [] ->
  to_date_str (map Entry.date logs) = Ok dates ->
  feature_rows cfg (combine dates logs) = Ok rows ->
  exists feat,
    build_features to_date_str argsort cfg logs = Ok feat
    /\ filter (has_date d) feat
       = keep_last (filter (has_date d) (sort_values argsort rows)).
Proof.
  intros Hne Hdates Hrows.
  exists (drop_duplicates_last (sort_values argsort rows)). split.
  - exact (build_features_unfold cfg logs dates rows Hne Hdates Hrows).
  - apply drop_duplicates_last_filter.
Qed.

(** With a sort that keeps the rows of one date in their order, which is
    what [kind="stable"] asks of pandas, the row left for a date is the
    row of the entry submitted last for that date. *)
Lemma build_features_last_wins_if_order_preserving (cfg : value)
    (logs : list RawLogEntry) (dates : list string) (rows : list FeatureRecord)
    (d : string) :
  order_preserving argsort ->
  logs <> [] ->
  to_date_str (map Entry.date logs) = Ok dates ->
  feature_rows cfg (combine dates logs) = Ok rows ->
  exists feat,
    build_features to_date_str argsort cfg logs = Ok feat
    /\ filter (has_date d) feat = keep_last (filter (has_date d) rows).
Proof.
  intros Hstable Hne Hdates Hrows.
  destruct (build_features_keeps_sorted_last cfg logs dates rows d Hne Hdates Hrows)
    as (feat & Hfeat & Hd).
  exists feat. split; [exact Hfeat |]. rewrite Hd, Hstable. reflexivity.
Qed.

End DuplicateDates.

Lemma take_all {A : Type} (rows : list A) :
  take rows (seq 0 (List.length rows)) = rows.
Proof.
  unfold take.
  assert (H : forall (pre : list A),
             flat_map (fun i => match nth_error (pre ++ rows)%list i with
                                | Some r => [r] | None => [] end)
                      (seq (List.length pre) (List.length rows)) = rows).
  { induction rows as [| x rows IH]; intros pre; simpl.
    - reflexivity.
    - rewrite nth_error_app2 by lia. rewrite Nat.sub_diag. simpl. f_equal.
      specialize (IH (pre ++ [x])%list). rewrite <- app_assoc in IH. simpl in IH.
      rewrite length_app in IH. simpl in IH. rewrite Nat.add_1_r in IH. exact IH. }
  exact (H []).
Qed.

(** An indexer that leaves the table as it is keeps the order of the rows
    of each date: order-preserving indexers exist. *)
Lemma order_preserving_identity :
  order_preserving (fun v => seq 0 (List.length v)).
Proof.
  intros rows d. unfold sort_values. rewrite length_map, take_all. reflexivity.
Qed.

(** * Further properties of the code *)

Import Spec2.

(** ** The scaling helpers *)

(** X1.  [minmax] and [inverse_minmax] stay within 0..100 for every value and
    every range; on a range that is empty or a point ([max_v <= min_v])
    [minmax] is 0 and [inverse_minmax] is 100. *)
Theorem minmax_range :
  forall value min_v max_v : R,
    0 <= minmax value min_v max_v <= 100
    /\ 0 <= inverse_minmax value min_v max_v <= 100
    /\ (max_v <= min_v ->
        minmax value min_v max_v = 0 /\ inverse_minmax value min_v max_v = 100).
Proof.
  intros v lo hi. pose proof (minmax_bounds v lo hi) as Hb.
  unfold inverse_minmax. repeat split; try lra.
  - unfold minmax. destruct (Rle_dec hi lo); [reflexivity | contradiction].
  - unfold minmax. destruct (Rle_dec hi lo); [lra | contradiction].
Qed.

Lemma minmax_range_witness :
  7 <= 7 /\ minmax 5 7 7 = 0 /\ inverse_minmax 5 7 7 = 100.
Proof.
  assert (H : 7 <= 7) by lra.
  split; [exact H |].
  exact (proj2 (proj2 (minmax_range 5 7 7)) H).
Defined.

Lemma clamp01_mono (x y : R) : x <= y -> Rmax 0 (Rmin 1 x) <= Rmax 0 (Rmin 1 y).
Proof. intros H. minmax_cases; lra. Qed.

Lemma minmax_ramp_facts :
  forall min_v max_v : R,
    min_v < max_v ->
    (forall value, value <= min_v -> minmax value min_v max_v = 0)
    /\ (forall value, max_v <= value -> minmax value min_v max_v = 100)
    /\ (forall v1 v2, v1 <= v2 -> minmax v1 min_v max_v <= minmax v2 min_v max_v).
Proof.
  intros lo hi Hlt.
  assert (Hinv : 0 < / (hi - lo)) by (apply Rinv_0_lt_compat; lra).
  repeat split.
  - intros v Hv. unfold minmax. destruct (Rle_dec hi lo); [lra |].
    assert (Hq : (v - lo) / (hi - lo) <= 0).
    { unfold Rdiv. replace 0 with (0 * / (hi - lo)) by lra.
      apply Rmult_le_compat_r; lra. }
    minmax_cases; lra.
  - intros v Hv. unfold minmax. destruct (Rle_dec hi lo); [lra |].
    assert (Hq : 1 <= (v - lo) / (hi - lo)).
    { unfold Rdiv. replace 1 with ((hi - lo) * / (hi - lo)) by (field; lra).
      apply Rmult_le_compat_r; lra. }
    minmax_cases; lra.
  - intros v1 v2 Hv. unfold minmax. destruct (Rle_dec hi lo); [lra |].
    apply Rmult_le_compat_r; [lra |]. apply clamp01_mono.
    unfold Rdiv. apply Rmult_le_compat_r; lra.
Qed.

(** X2.  On a proper range [minmax] is a ramp: 0 up to [min_v], 100 from
    [max_v] on, and never decreasing in between. *)
Theorem minmax_ramp :
  forall min_v max_v : R,
    min_v < max_v ->
    (forall value, value <= min_v -> minmax value min_v max_v = 0)
    /\ (forall value, max_v <= value -> minmax value min_v max_v = 100)
    /\ (forall v1 v2, v1 <= v2 -> minmax v1 min_v max_v <= minmax v2 min_v max_v).
Proof. exact minmax_ramp_facts. Qed.

Lemma minmax_ramp_witness :
  4 < 7 /\ minmax 3 4 7 = 0 /\ minmax 9 4 7 = 100 /\ minmax 5 4 7 <= minmax 6 4 7.
Proof.
  assert (H : 4 < 7) by lra.
  destruct (minmax_ramp 4 7 H) as (Hlo & Hhi & Hmono).
  split; [exact H |]. split; [apply Hlo; lra |]. split; [apply Hhi; lra |].
  apply Hmono. lra.
Defined.

(** ** Sleep *)

(** X3.  Within the ideal window the sleep score is 100, with or without a
    bedtime: the bonus is absorbed by the cap. *)
Theorem score_sleep_ideal_window :
  forall (_to_time : string -> option nat) (hours : R) (bedtime : option string)
         (ideal_min ideal_max : R) (bedtime_bonus_before : string)
         (max_daily_points : R),
    ideal_min <= hours <= ideal_max ->
    score_sleep _to_time (Some hours) bedtime ideal_min ideal_max
                bedtime_bonus_before max_daily_points = Ok 100.
Proof.
  intros clock h b lo hi before m [Hlo Hhi]. unfold score_sleep. f_equal.
  destruct (Rlt_dec h lo); [lra |]. destruct (Rlt_dec hi h); [lra |].
  destruct (bedtime_bonus_cases clock b before) as [-> | ->]; minmax_cases; lra.
Qed.

Lemma score_sleep_ideal_window_witness :
  7 <= 7.5 <= 8.5
  /\ score_sleep (fun _ => Some 1350%nat) (Some 7.5) (Some "22:30") 7 8.5 "23:00" 100
     = Ok 100.
Proof.
  assert (H : 7 <= 7.5 <= 8.5) by lra.
  split; [exact H |].
  exact (score_sleep_ideal_window (fun _ => Some 1350%nat) 7.5 (Some "22:30")
           7 8.5 "23:00" 100 H).
Defined.

(** X4.  A bedtime, or a bonus threshold, that the clock parser rejects
    never raises: the score is the one of a day without a bedtime. *)
Theorem score_sleep_malformed_bedtime :
  forall (_to_time : string -> option nat) (hours : option R) (bedtime : string)
         (ideal_min ideal_max : R) (bedtime_bonus_before : string)
         (max_daily_points : R),
    _to_time bedtime = None \/ _to_time bedtime_bonus_before = None ->
    score_sleep _to_time hours (Some bedtime) ideal_min ideal_max
                bedtime_bonus_before max_daily_points
    = score_sleep _to_time hours None ideal_min ideal_max
                  bedtime_bonus_before max_daily_points.
Proof.
  intros clock h b lo hi before m H. unfold score_sleep, bedtime_bonus.
  destruct (String.eqb b ""); [reflexivity |].
  destruct (clock b); [| reflexivity].
  destruct H as [H | H]; [discriminate |]. rewrite H. reflexivity.
Qed.

Lemma score_sleep_malformed_bedtime_witness :
  ((fun s : string => if String.eqb s "23:00" then Some 1380%nat else None) "late" = None
   \/ (fun s : string => if String.eqb s "23:00" then Some 1380%nat else None) "23:00" = None)
  /\ score_sleep (fun s => if String.eqb s "23:00" then Some 1380%nat else None)
       (Some 6) (Some "late") 7 8.5 "23:00" 100
     = score_sleep (fun s => if String.eqb s "23:00" then Some 1380%nat else None)
         (Some 6) None 7 8.5 "23:00" 100.
Proof.
  assert (H : (fun s : string => if String.eqb s "23:00" then Some 1380%nat else None)
                "late" = None
              \/ (fun s : string => if String.eqb s "23:00" then Some 1380%nat else None)
                   "23:00" = None) by (left; reflexivity).
  split; [exact H |].
  exact (score_sleep_malformed_bedtime _ (Some 6) "late" 7 8.5 "23:00" 100 H).
Defined.



(** ** Charitable giving: where the score saturates *)

Lemma div_ge_1 (x y : R) : 0 < y -> y <= x -> 1 <= x / y.
Proof.
  intros Hy Hxy. pose proof (Rinv_0_lt_compat y Hy) as Hi.
  assert (H : y * / y = 1) by (field; lra).
  rewrite <- H. unfold Rdiv. apply Rmult_le_compat_r; lra.
Qed.

(** X6.  Under a policy whose logarithm is defined, the score is 100 from an
    amount of 1000 on, with or without log scaling and whatever the base
    and [max_daily_points]. *)
Theorem score_sadaqah_saturation :
  forall (log_scale : bool) (log_base max_daily_points amount : R),
    valid_log_policy log_scale log_base ->
    1000 <= amount ->
    score_sadaqah amount log_scale log_base max_daily_points = Ok 100.
Proof.
  intros ls lb m a Hv Ha. pose proof ln_1001_pos as H1001.
  rewrite score_sadaqah_positive by (auto; lra). f_equal.
  unfold sadaqah_value. destruct ls.
  - pose proof (ln_le_mono (1000 + 1) (a + 1) ltac:(lra) ltac:(lra)) as Hl.
    pose proof (div_ge_1 _ _ H1001 Hl) as Hq.
    minmax_cases; lra.
  - minmax_cases; lra.
Qed.

Lemma score_sadaqah_saturation_witness :
  valid_log_policy true 10
  /\ 1000 <= 5000
  /\ score_sadaqah 5000 true 10 100 = Ok 100.
Proof.
  assert (Hv : valid_log_policy true 10) by (right; split; lra).
  assert (Ha : 1000 <= 5000) by lra.
  split; [exact Hv |]. split; [exact Ha |].
  exact (score_sadaqah_saturation true 10 100 5000 Hv Ha).
Defined.

(** ** Screen time *)

Lemma score_screen_time_formula (am : dict R) (pa da : list string) (mdm : R) :
  am <> [] ->
  score_screen_time am
    {| productive_apps := Some pa; distracting_apps := Some da;
       max_daily_minutes := Some mdm |}
  = Ok (Rmax 0 (Rmin 1
          (0.6 * (minutes_in pa am / Rmax (minutes_in pa am + minutes_in da am) 1)
           + 0.4 * (1 - Rmin 1 (minutes_in da am / Rmax 1 mdm)))) * 100).
Proof.
  intros Hne. unfold score_screen_time. destruct am as [| kv am']; [congruence |].
  cbn [productive_apps distracting_apps max_daily_minutes].
  set (prod := minutes_in pa _). set (dist := minutes_in da _).
  assert (H1 : Rmax (prod + dist) 1 <> 0) by (pose proof (Rmax_r (prod + dist) 1); lra).
  assert (H2 : Rmax 1 mdm <> 0) by (pose proof (Rmax_l 1 mdm); lra).
  rewrite truediv_ok by exact H1. cbn [bind].
  rewrite truediv_ok by exact H2. reflexivity.
Qed.

Lemma minutes_in_none (apps : list string) (am : dict R) :
  (forall a, In a (map fst am) -> contains apps a = false) ->
  minutes_in apps am = 0.
Proof.
  intros H. unfold minutes_in.
  assert (Hf : filter (fun x => contains apps (fst x)) am = []).
  { induction am as [| [a m] am IH]; simpl; [reflexivity |].
    rewrite (H a) by (simpl; auto). apply IH. intros a' Ha'. apply H. simpl. auto. }
  rewrite Hf. reflexivity.
Qed.

(** X7.  A day whose logged apps are in neither list of the configuration
    does not get the neutral 50 of a day without data: its score is 40. *)
Theorem score_screen_time_uncategorised :
  forall (app_minutes : dict R) (pa da : list string) (mdm : R),
    app_minutes <> [] ->
    (forall a, In a (map fst app_minutes) ->
               contains pa a = false /\ contains da a = false) ->
    score_screen_time app_minutes
      {| productive_apps := Some pa; distracting_apps := Some da;
         max_daily_minutes := Some mdm |} = Ok 40.
Proof.
  intros am pa da mdm Hne Hnone.
  rewrite score_screen_time_formula by exact Hne.
  rewrite (minutes_in_none pa am) by (intros a Ha; apply (Hnone a Ha)).
  rewrite (minutes_in_none da am) by (intros a Ha; apply (Hnone a Ha)).
  f_equal.
  assert (H2 : Rmax 1 mdm <> 0) by (pose proof (Rmax_l 1 mdm); lra).
  replace (0 / Rmax 1 mdm) with 0 by (field; exact H2).
  assert (H1 : Rmax (0 + 0) 1 = 1) by (unfold Rmax; destruct (Rle_dec _ _); lra).
  rewrite H1. replace (0 / 1) with 0 by field.
  minmax_cases; lra.
Qed.

Lemma score_screen_time_uncategorised_witness :
  [("Maps", 25)] <> ([] : dict R)
  /\ (forall a, In a (map fst [("Maps", 25)]) ->
                contains ["Notion"] a = false /\ contains ["TikTok"] a = false)
  /\ score_screen_time [("Maps", 25)]
       {| productive_apps := Some ["Notion"]; distracting_apps := Some ["TikTok"];
          max_daily_minutes := Some 120 |} = Ok 40.
Proof.
  assert (H1 : [("Maps", 25)] <> ([] : dict R)) by discriminate.
  assert (H2 : forall a, In a (map fst [("Maps", 25)]) ->
                 contains ["Notion"] a = false /\ contains ["TikTok"] a = false).
  { intros a [<- | []]. split; reflexivity. }
  split; [exact H1 |]. split; [exact H2 |].
  exact (score_screen_time_uncategorised [("Maps", 25)] ["Notion"] ["TikTok"] 120 H1 H2).
Defined.

(** X8.  The two ends of the screen-time score: at least one productive
    minute and no distracting one give 100; no productive minute and
    distracting minutes at or above the daily cap (taken as at least 1)
    give 0. *)
Theorem score_screen_time_extremes :
  forall (app_minutes : dict R) (pa da : list string) (mdm : R),
    app_minutes <> [] ->
    (1 <= minutes_in pa app_minutes -> minutes_in da app_minutes = 0 ->
     score_screen_time app_minutes
       {| productive_apps := Some pa; distracting_apps := Some da;
          max_daily_minutes := Some mdm |} = Ok 100)
    /\ (minutes_in pa app_minutes = 0 -> Rmax 1 mdm <= minutes_in da app_minutes ->
        score_screen_time app_minutes
          {| productive_apps := Some pa; distracting_apps := Some da;
             max_daily_minutes := Some mdm |} = Ok 0).
Proof.
  intros am pa da mdm Hne.
  assert (H2 : 1 <= Rmax 1 mdm) by apply Rmax_l.
  split.
  - intros Hp Hd. rewrite score_screen_time_formula by exact Hne. rewrite Hd. f_equal.
    replace (0 / Rmax 1 mdm) with 0 by (field; lra).
    assert (H1 : Rmax (minutes_in pa am + 0) 1 = minutes_in pa am)
      by (unfold Rmax; destruct (Rle_dec _ _); lra).
    rewrite H1. replace (minutes_in pa am / minutes_in pa am) with 1 by (field; lra).
    minmax_cases; lra.
  - intros Hp Hd. rewrite score_screen_time_formula by exact Hne. rewrite Hp. f_equal.
    assert (H1 : Rmax (0 + minutes_in da am) 1 = minutes_in da am)
      by (unfold Rmax; destruct (Rle_dec _ _); lra).
    rewrite H1. replace (0 / minutes_in da am) with 0 by (field; lra).
    assert (H3 : 0 < Rmax 1 mdm) by lra.
    pose proof (div_ge_1 _ _ H3 Hd) as Hq.
    minmax_cases; lra.
Qed.

Lemma score_screen_time_extremes_witness :
  [("Notion", 45)] <> ([] : dict R)
  /\ 1 <= minutes_in ["Notion"] [("Notion", 45)]
  /\ minutes_in ["TikTok"] [("Notion", 45)] = 0
  /\ score_screen_time [("Notion", 45)]
       {| productive_apps := Some ["Notion"]; distracting_apps := Some ["TikTok"];
          max_daily_minutes := Some 120 |} = Ok 100.
Proof.
  assert (H0 : [("Notion", 45)] <> ([] : dict R)) by discriminate.
  assert (H1 : 1 <= minutes_in ["Notion"] [("Notion", 45)])
    by (unfold minutes_in, Py.sum; simpl; lra).
  assert (H2 : minutes_in ["TikTok"] [("Notion", 45)] = 0) by reflexivity.
  split; [exact H0 |]. split; [exact H1 |]. split; [exact H2 |].
  exact (proj1 (score_screen_time_extremes [("Notion", 45)] ["Notion"] ["TikTok"] 120 H0)
           H1 H2).
Defined.

(** ** The composite score *)

(** X9.  The composite is not clamped, and rounding can carry it above
    100: with every component at 100 and the slider weights 0.26, 0.33,
    0.23, 0.37, 0.23, 0.3, 0.18, 0.36 the composite computed in binary64 is
    100.00000000000001, under the left-to-right [sum] and under the
    compensated one. *)
Theorem weighted_baraka_score_exceeds_100 :
  Binary64.weighted_baraka_score Binary64.sum_left
    Spec64.full_components Spec64.slider_weights = 100.00000000000001%float
  /\ Binary64.weighted_baraka_score Binary64.sum_compensated
       Spec64.full_components Spec64.slider_weights = 100.00000000000001%float
  /\ PrimFloat.ltb 100 100.00000000000001 = true.
Proof. repeat split; vm_compute; reflexivity. Qed.

Lemma get_app_other {V : Type} (c1 c2 : dict V) (k k' : string) (v : V) :
  k <> k' -> get (c1 ++ (k, v) :: c2)%list k' = get (c1 ++ c2)%list k'.
Proof.
  intros Hne. induction c1 as [| [k1 v1] c1 IH]; simpl.
  - destruct (String.eqb_spec k k'); [contradiction | reflexivity].
  - destruct (String.eqb k1 k'); [reflexivity | exact IH].
Qed.

(** X10.  A component whose key carries no weight does not enter the
    composite score: adding it, anywhere in the mapping, changes nothing. *)
Theorem weighted_baraka_score_unweighted_component :
  forall (c1 c2 weights : dict R) (k : string) (v : R),
    ~ In k (map fst weights) ->
    weighted_baraka_score (c1 ++ (k, v) :: c2)%list weights
    = weighted_baraka_score (c1 ++ c2)%list weights.
Proof.
  intros c1 c2 weights k v Hk. unfold weighted_baraka_score. do 2 f_equal.
  apply map_ext_in. intros [k' w] Hin. simpl.
  unfold get_default. rewrite get_app_other; [reflexivity |].
  intros ->. apply Hk. apply in_map_iff. exists (k', w). auto.
Qed.

Lemma weighted_baraka_score_unweighted_component_witness :
  ~ In "mood" (map fst [("prayer_on_time", 3); ("dhikr", 1)])
  /\ weighted_baraka_score
       ([("prayer_on_time", 80)] ++ ("mood", 999) :: [("dhikr", 40)])%list
       [("prayer_on_time", 3); ("dhikr", 1)]
     = weighted_baraka_score ([("prayer_on_time", 80)] ++ [("dhikr", 40)])%list
         [("prayer_on_time", 3); ("dhikr", 1)].
Proof.
  assert (H : ~ In "mood" (map fst [("prayer_on_time", 3); ("dhikr", 1)])).
  { simpl. intros [H | [H | []]]; discriminate. }
  split; [exact H |].
  exact (weighted_baraka_score_unweighted_component
           [("prayer_on_time", 80)] [("dhikr", 40)]
           [("prayer_on_time", 3); ("dhikr", 1)] "mood" 999 H).
Defined.

(** ** Recitation *)

Lemma score_quran_closed (table : string -> option Z) (rs : list Recitation)
    (base m : R) :
  m <> 0 ->
  score_quran table rs base m
  = Ok (Rmin 100
          (fold_left (fun pts r => pts + IZR (ayat_of table r) * base) rs 0 / m * 100)).
Proof.
  intros Hm. unfold score_quran. destruct rs as [| r rs'].
  - simpl. f_equal. replace (0 / m * 100) with 0 by (field; exact Hm).
    minmax_cases; lra.
  - rewrite truediv_ok by exact Hm. reflexivity.
Qed.



(** ** The pipeline and the scorers *)

Lemma score_sadaqah_result_bounded (a : R) (ls : bool) (lb m s : R) :
  score_sadaqah a ls lb m = Ok s -> 0 <= s <= 100.
Proof.
  intros H.
  destruct (proj1 (score_sadaqah_returns_iff a ls lb m) (ex_intro _ s H)) as [Ha | Hv].
  - rewrite score_sadaqah_nonpositive in H by exact Ha. inversion H. lra.
  - destruct (score_sadaqah_bounded a ls lb m Hv) as (s' & Hs' & Hb).
    rewrite H in Hs'. inversion Hs'. subst s'. exact Hb.
Qed.


Section PipelineScorers.

Variable _to_time : string -> option nat.

(** The components that a successful run takes from the scorers, and the
    keys of the mapping. *)
Lemma calculate_score_components_scorers (row : FeatureRecord) (cfg : value)
    (comps : dict R) :
  calculate_score_components _to_time row cfg = Ok comps ->
  exists dhikr_cfg ppr dmax sadaqah_cfg log_scale log_base smax
         sleep_cfg lo hi before slmax dhikr sadaqah sleep,
    map fst comps = component_keys
    /\ get comps "prayer_on_time" = Some (Row.prayer_on_time row * 100)
    /\ getitem cfg "dhikr" = Ok dhikr_cfg
    /\ num_item dhikr_cfg "points_per_repetition" = Ok ppr
    /\ num_item dhikr_cfg "max_daily_points" = Ok dmax
    /\ score_dhikr (Row.dhikr_reps row) ppr dmax = Ok dhikr
    /\ get comps "dhikr" = Some dhikr
    /\ getitem cfg "sadaqah" = Ok sadaqah_cfg
    /\ getitem sadaqah_cfg "log_scale" = Ok log_scale
    /\ num_item sadaqah_cfg "log_base" = Ok log_base
    /\ num_item sadaqah_cfg "max_daily_points" = Ok smax
    /\ score_sadaqah (Row.sadaqah_amount row) (truthy log_scale) log_base smax = Ok sadaqah
    /\ get comps "sadaqah" = Some sadaqah
    /\ getitem cfg "sleep" = Ok sleep_cfg
    /\ num_item sleep_cfg "ideal_min_hours" = Ok lo
    /\ num_item sleep_cfg "ideal_max_hours" = Ok hi
    /\ str_item sleep_cfg "bedtime_bonus_before" = Ok before
    /\ num_item sleep_cfg "max_daily_points" = Ok slmax
    /\ score_sleep _to_time (Some (Row.sleep_hours row))
         (if String.eqb (Row.bedtime row) "" then None else Some (Row.bedtime row))
         lo hi before slmax = Ok sleep
    /\ get comps "sleep" = Some sleep.
Proof.
  intros H. unfold calculate_score_components in H. cbv zeta in H.
  invert_binds H.
  inversion H; subst comps; clear H.
  exists x2, x3, x4, x6, x7, x8, x9, x11, x12, x13, x14, x15,
         (Rmin 100 (x5 * 100)), x10, x16.
  assert (Hd : score_dhikr (Row.dhikr_reps row) x3 x4 = Ok (Rmin 100 (x5 * 100))).
  { unfold score_dhikr. rewrite Hx5. reflexivity. }
  repeat (split; [first [assumption | reflexivity] |]).
  reflexivity.
Qed.

(** X12.  Whenever the components are computed, the mapping has the eight
    component keys in their fixed order, and the remembrance, charitable
    giving and sleep components are what [score_dhikr], [score_sadaqah] and
    [score_sleep] return on the row's values with the parameters of the
    matching section of the configuration. *)
Theorem calculate_score_components_uses_scorers :
  forall (row : FeatureRecord) (cfg : value) (comps : dict R),
    calculate_score_components _to_time row cfg = Ok comps ->
    map fst comps = component_keys
    /\ (exists dhikr_cfg ppr dmax s,
          getitem cfg "dhikr" = Ok dhikr_cfg
          /\ num_item dhikr_cfg "points_per_repetition" = Ok ppr
          /\ num_item dhikr_cfg "max_daily_points" = Ok dmax
          /\ score_dhikr (Row.dhikr_reps row) ppr dmax = Ok s
          /\ get comps "dhikr" = Some s)
    /\ (exists sadaqah_cfg log_scale log_base smax s,
          getitem cfg "sadaqah" = Ok sadaqah_cfg
          /\ getitem sadaqah_cfg "log_scale" = Ok log_scale
          /\ num_item sadaqah_cfg "log_base" = Ok log_base
          /\ num_item sadaqah_cfg "max_daily_points" = Ok smax
          /\ score_sadaqah (Row.sadaqah_amount row) (truthy log_scale) log_base smax
             = Ok s
          /\ get comps "sadaqah" = Some s)
    /\ (exists sleep_cfg lo hi before slmax s,
          getitem cfg "sleep" = Ok sleep_cfg
          /\ num_item sleep_cfg "ideal_min_hours" = Ok lo
          /\ num_item sleep_cfg "ideal_max_hours" = Ok hi
          /\ str_item sleep_cfg "bedtime_bonus_before" = Ok before
          /\ num_item sleep_cfg "max_daily_points" = Ok slmax
          /\ score_sleep _to_time (Some (Row.sleep_hours row))
               (if String.eqb (Row.bedtime row) "" then None
                else Some (Row.bedtime row)) lo hi before slmax = Ok s
          /\ get comps "sleep" = Some s).
Proof.
  intros row cfg comps H.
  apply calculate_score_components_scorers in H
    as (dc & ppr & dmax & sc & ls & lb & smax & slc & lo & hi & before & slmax
        & d & sa & sl & Hkeys & _ & Hdc & Hppr & Hdmax & Hd & Hgd
        & Hsc & Hls & Hlb & Hsmax & Hsa & Hgsa
        & Hslc & Hlo & Hhi & Hbefore & Hslmax & Hsl & Hgsl).
  split; [exact Hkeys |]. split; [| split].
  - exists dc, ppr, dmax, d. repeat split; assumption.
  - exists sc, ls, lb, smax, sa. repeat split; assumption.
  - exists slc, lo, hi, before, slmax, sl. repeat split; assumption.
Qed.

(** The whole mapping of a successful run. *)
Lemma calculate_score_components_shape (row : FeatureRecord) (cfg : value)
    (comps : dict R) :
  calculate_score_components _to_time row cfg = Ok comps ->
  exists q dk sa sl st og ob,
    comps = [("prayer_on_time", Row.prayer_on_time row * 100);
             ("quran_recitation", Rmin 100 q); ("dhikr", Rmin 100 dk);
             ("sadaqah", sa); ("sleep", sl); ("screen_time", st);
             ("other_good", og); ("other_bad", ob)]
    /\ bounded (Ok sa) /\ bounded (Ok sl) /\ bounded (Ok st)
    /\ bounded (Ok og) /\ bounded (Ok ob).
Proof.
  intros H. unfold calculate_score_components in H. cbv zeta in H.
  invert_binds H.
  inversion H; subst comps; clear H.
  exists (x1 * 100), (x5 * 100), x10, x16, x19, x23, x26.
  split; [reflexivity |].
  split; [| split; [| split; [| split]]].
  - exists x10. split; [reflexivity |]. eapply score_sadaqah_result_bounded. exact Hx10.
  - rewrite <- Hx16. apply score_sleep_bounded.
  - rewrite <- Hx19. apply score_screen_time_bounded; discriminate.
  - rewrite <- Hx23. apply score_other_bounded.
  - rewrite <- Hx26. apply score_other_bounded.
Qed.

(** Every component of a row built from an entry is at most 100. *)
Lemma prayer_mean_bounds (e : RawLogEntry) : 0 <= prayer_mean e <= 1.
Proof.
  unfold prayer_mean, int_of_bool.
  destruct (Fajr e), (Dhuhr e), (Asr e), (Maghrib e), (Isha e); simpl; lra.
Qed.

End PipelineScorers.

Lemma calculate_score_components_uses_scorers_witness :
  exists comps,
    calculate_score_components (fun _ => None) (habits_row "2025-01-01" 1 1) example_cfg
    = Ok comps
    /\ map fst comps = component_keys.
Proof.
  destruct (calculate_score_components_example_returns (fun _ => None)
              (habits_row "2025-01-01" 1 1)) as [comps Hcomps].
  exists comps. split; [exact Hcomps |].
  exact (proj1 (calculate_score_components_uses_scorers (fun _ => None)
                  (habits_row "2025-01-01" 1 1) example_cfg comps Hcomps)).
Defined.

Lemma feature_row_prayer (cfg : value) (d : string) (e : RawLogEntry)
    (row : FeatureRecord) :
  feature_row cfg d e = Ok row -> Row.prayer_on_time row = prayer_mean e.
Proof.
  unfold feature_row. intros H. apply bind_inv in H as (split & _ & H).
  inversion H. reflexivity.
Qed.

Lemma score_prayer_validated (e : RawLogEntry) :
  score_prayer (Validation.validate_prayers (entry_prayers e))
  = Ok (prayer_mean e * 100).
Proof.
  unfold Validation.validate_prayers, Validation.PRAYERS, entry_prayers, prayer_mean,
    int_of_bool, get_default.
  destruct (Fajr e), (Dhuhr e), (Asr e), (Maghrib e), (Isha e);
    cbn [map get String.eqb Ascii.eqb Bool.eqb]; unfold score_prayer;
    cbn [map snd fold_left List.length Z.add Z.of_nat Pos.of_succ_nat Pos.succ
         Pos.add Pos.add_carry];
    rewrite truediv_ok by lra; reflexivity.
Qed.

(** X13.  The prayer component the pipeline computes inline for an entry is
    the score [score_prayer] gives to the entry's five flags once
    [validate_prayers] has turned them into 0/1. *)
Theorem pipeline_prayer_agrees_with_scorer :
  forall (_to_time : string -> option nat) (cfg cfg' : value) (d : string)
         (e : RawLogEntry) (row : FeatureRecord) (comps : dict R),
    feature_row cfg d e = Ok row ->
    calculate_score_components _to_time row cfg' = Ok comps ->
    exists s,
      score_prayer (Validation.validate_prayers (entry_prayers e)) = Ok s
      /\ get comps "prayer_on_time" = Some s.
Proof.
  intros clock cfg cfg' d e row comps Hrow Hcomps.
  exists (prayer_mean e * 100). split; [apply score_prayer_validated |].
  apply calculate_score_components_scorers in Hcomps
    as (? & ? & ? & ? & ? & ? & ? & ? & ? & ? & ? & ? & ? & ? & ? & _ & Hp & _).
  rewrite Hp. rewrite (feature_row_prayer cfg d e row Hrow). reflexivity.
Qed.

Lemma pipeline_prayer_agrees_with_scorer_witness :
  exists row comps s,
    feature_row example_cfg "2025-01-01" (blank_entry "2025-01-01") = Ok row
    /\ calculate_score_components (fun _ => None) row example_cfg = Ok comps
    /\ score_prayer (Validation.validate_prayers (entry_prayers (blank_entry "2025-01-01")))
       = Ok s
    /\ get comps "prayer_on_time" = Some s.
Proof.
  destruct example_cfg_apps as [Hp Hd].
  destruct (feature_row_returns example_cfg "2025-01-01" (blank_entry "2025-01-01") Hp Hd)
    as [row Hrow].
  destruct (calculate_score_components_example_returns (fun _ => None) row)
    as [comps Hcomps].
  destruct (pipeline_prayer_agrees_with_scorer (fun _ => None) example_cfg example_cfg
              "2025-01-01" (blank_entry "2025-01-01") row comps Hrow Hcomps)
    as (s & Hs & Hg).
  exists row, comps, s. repeat split; assumption.
Defined.

(** X14.  No component of a row built from an entry exceeds 100, and every
    component other than recitation and remembrance is at least 0, under
    any configuration for which the components are computed. *)
Theorem pipeline_components_capped :
  forall (_to_time : string -> option nat) (cfg cfg' : value) (d : string)
         (e : RawLogEntry) (row : FeatureRecord) (comps : dict R),
    feature_row cfg d e = Ok row ->
    calculate_score_components _to_time row cfg' = Ok comps ->
    Forall (fun kv => snd kv <= 100) comps
    /\ Forall (fun kv => fst kv = "quran_recitation" \/ fst kv = "dhikr"
                         \/ 0 <= snd kv) comps.
Proof.
  intros clock cfg cfg' d e row comps Hrow Hcomps.
  apply calculate_score_components_shape in Hcomps
    as (q & dk & sa & sl & st & og & ob & -> & Hsa & Hsl & Hst & Hog & Hob).
  rewrite (feature_row_prayer cfg d e row Hrow).
  pose proof (prayer_mean_bounds e) as Hp.
  pose proof (Rmin_l 100 q) as Hq. pose proof (Rmin_l 100 dk) as Hdk.
  destruct Hsa as (? & Ea & Ha); inversion Ea; subst.
  destruct Hsl as (? & El & Hl); inversion El; subst.
  destruct Hst as (? & Et & Ht); inversion Et; subst.
  destruct Hog as (? & Eg & Hg); inversion Eg; subst.
  destruct Hob as (? & Eb & Hb); inversion Eb; subst.
  split.
  - repeat (constructor; [simpl; lra |]). constructor.
  - repeat (constructor; [simpl; first [now left | now (right; left) | right; right; lra] |]).
    constructor.
Qed.

Lemma pipeline_components_capped_witness :
  exists row comps,
    feature_row example_cfg "2025-01-01" (blank_entry "2025-01-01") = Ok row
    /\ calculate_score_components (fun _ => None) row example_cfg = Ok comps
    /\ Forall (fun kv => snd kv <= 100) comps.
Proof.
  destruct example_cfg_apps as [Hp Hd].
  destruct (feature_row_returns example_cfg "2025-01-01" (blank_entry "2025-01-01") Hp Hd)
    as [row Hrow].
  destruct (calculate_score_components_example_returns (fun _ => None) row)
    as [comps Hcomps].
  exists row, comps. split; [exact Hrow |]. split; [exact Hcomps |].
  exact (proj1 (pipeline_components_capped (fun _ => None) example_cfg example_cfg
                  "2025-01-01" (blank_entry "2025-01-01") row comps Hrow Hcomps)).
Defined.

(** ** The feature table *)

Lemma drop_duplicates_last_incl (rows : list FeatureRecord) (r : FeatureRecord) :
  In r (drop_duplicates_last rows) -> In r rows.
Proof.
  induction rows as [| r' rows IH]; simpl; [trivial |].
  destruct (existsb _ rows); simpl; intuition.
Qed.

Lemma drop_duplicates_last_NoDup (rows : list FeatureRecord) :
  NoDup (map Row.date (drop_duplicates_last rows)).
Proof.
  induction rows as [| r rows IH]; simpl; [constructor |].
  destruct (existsb _ rows) eqn:Hdup; [exact IH |].
  simpl. constructor; [| exact IH].
  intros Hin. apply in_map_iff in Hin as (r' & Hd & Hr').
  apply drop_duplicates_last_incl in Hr'.
  assert (Ht : existsb (fun r'0 => String.eqb (Row.date r'0) (Row.date r)) rows = true).
  { apply existsb_exists. exists r'. split; [exact Hr' |]. now apply String.eqb_eq. }
  congruence.
Qed.

Lemma drop_duplicates_last_keeps_dates (rows : list FeatureRecord) (d : string) :
  In d (map Row.date rows) -> In d (map Row.date (drop_duplicates_last rows)).
Proof.
  induction rows as [| r rows IH]; simpl; [trivial |].
  intros [Hd | Hin].
  - destruct (existsb _ rows) eqn:Hdup.
    + apply IH. apply existsb_exists in Hdup as (r' & Hr' & He).
      apply String.eqb_eq in He. apply in_map_iff. exists r'. split; congruence.
    + simpl. now left.
  - destruct (existsb _ rows); [auto | simpl; auto].
Qed.

Lemma take_incl {A : Type} (rows : list A) (indexer : list nat) (r : A) :
  In r (take rows indexer) -> In r rows.
Proof.
  unfold take. intros H. apply in_flat_map in H as (i & _ & Hi).
  destruct (nth_error rows i) eqn:E; [| contradiction].
  destruct Hi as [<- | []]. eapply nth_error_In. exact E.
Qed.

Lemma take_permutation {A : Type} (rows : list A) (indexer : list nat) :
  Permutation indexer (seq 0 (List.length rows)) ->
  Permutation (take rows indexer) rows.
Proof.
  intros H. rewrite <- (take_all rows) at 2. unfold take.
  apply Permutation_flat_map. exact H.
Qed.

Lemma feature_rows_dates (cfg : value) (dated : list (string * RawLogEntry))
    (rows : list FeatureRecord) :
  feature_rows cfg dated = Ok rows -> map Row.date rows = map fst dated.
Proof.
  revert rows. induction dated as [| [d e] dated IH]; simpl; intros rows H.
  - inversion H. reflexivity.
  - apply bind_inv in H as (r & Hr & H). apply bind_inv in H as (rs & Hrs & H).
    inversion H; subst rows. simpl. f_equal; [| auto].
    apply feature_row_inv in Hr as (_ & _ & Hd & _). exact Hd.
Qed.

Section FeatureTable.

Variable to_date_str : list string -> result (list string).
Variable argsort : list string -> list nat.

Lemma build_features_inv (cfg : value) (logs : list RawLogEntry)
    (feat : list FeatureRecord) :
  build_features to_date_str argsort cfg logs = Ok feat ->
  (logs = [] /\ feat = [])
  \/ exists dates rows,
       to_date_str (map Entry.date logs) = Ok dates
       /\ feature_rows cfg (combine dates logs) = Ok rows
       /\ feat = drop_duplicates_last (sort_values argsort rows).
Proof.
  unfold build_features. destruct logs as [| e logs'].
  - intros H. inversion H. now left.
  - intros H. right. apply bind_inv in H as (dates & Hd & H).
    apply bind_inv in H as (rows & Hr & H). inversion H. eauto.
Qed.

(** X15.  Whatever the date normalisation and the sort do, the table the
    feature builder returns has no two rows with the same date. *)
Theorem build_features_one_row_per_date :
  forall (cfg : value) (logs : list RawLogEntry) (feat : list FeatureRecord),
    build_features to_date_str argsort cfg logs = Ok feat ->
    NoDup (map Row.date feat).
Proof.
  intros cfg logs feat H.
  apply build_features_inv in H as [[_ ->] | (dates & rows & _ & _ & ->)].
  - constructor.
  - apply drop_duplicates_last_NoDup.
Qed.

(** X16.  On a log whose entries carry every key the form writes, with
    integer counts that fit 64 bits, every row of the returned table is the
    row built from one submitted entry and its normalised date: rows are
    never merged from several submissions, and none is made up. *)
Theorem build_features_rows_from_entries :
  forall (cfg : value) (logs : list RawLogEntry) (feat : list FeatureRecord)
         (r : FeatureRecord),
    Forall Range.entry_int64 logs ->
    build_features to_date_str argsort cfg logs = Ok feat ->
    In r feat ->
    exists dates d e,
      to_date_str (map Entry.date logs) = Ok dates
      /\ In (d, e) (combine dates logs)
      /\ In e logs
      /\ Range.entry_int64 e
      /\ feature_row cfg d e = Ok r.
Proof.
  intros cfg logs feat r Hfit H Hin.
  apply build_features_inv in H as [[_ ->] | (dates & rows & Hd & Hrows & ->)].
  - contradiction.
  - apply drop_duplicates_last_incl in Hin. apply take_incl in Hin.
    apply feature_rows_each in Hrows.
    assert (Hex : exists de, In de (combine dates logs)
                             /\ feature_row cfg (fst de) (snd de) = Ok r).
    { clear Hd. induction Hrows as [| de r' des rs Hde _ IH]; [contradiction |].
      destruct Hin as [<- | Hin].
      - exists de. split; [now left | exact Hde].
      - destruct (IH Hin) as (de' & Hin' & Hr'). exists de'. split; [now right | exact Hr']. }
    destruct Hex as ([d e] & Hin' & Hr). exists dates, d, e.
    assert (Hine : In e logs) by (eapply in_combine_r; exact Hin').
    split; [exact Hd |]. split; [exact Hin' |]. split; [exact Hine |].
    split; [| exact Hr].
    rewrite Forall_forall in Hfit. now apply Hfit.
Qed.

Lemma build_features_dates_kept :
  forall (cfg : value) (logs : list RawLogEntry) (dates : list string)
         (feat : list FeatureRecord) (d : string),
    (forall v, Permutation (argsort v) (seq 0 (List.length v))) ->
    to_date_str (map Entry.date logs) = Ok dates ->
    List.length dates = List.length logs ->
    build_features to_date_str argsort cfg logs = Ok feat ->
    In d dates ->
    In d (map Row.date feat).
Proof.
  intros cfg logs dates feat d Hperm Hd Hlen H Hin.
  apply build_features_inv in H as [[-> ->] | (dates' & rows & Hd' & Hrows & ->)].
  - destruct dates; [contradiction | discriminate].
  - rewrite Hd in Hd'. inversion Hd'; subst dates'.
    apply drop_duplicates_last_keeps_dates.
    pose proof (feature_rows_dates cfg _ rows Hrows) as Hdates.
    assert (Hfst : map fst (combine dates logs) = dates).
    { clear -Hlen. revert logs Hlen. induction dates as [| x dates IH]; intros [| e logs] Hlen;
        simpl in *; try discriminate; [reflexivity |]. f_equal. apply IH. lia. }
    rewrite Hfst in Hdates.
    unfold sort_values.
    assert (Hp : Permutation (take rows (argsort (map Row.date rows))) rows).
    { apply take_permutation. specialize (Hperm (map Row.date rows)).
      rewrite length_map in Hperm. exact Hperm. }
    apply (Permutation_in d (Permutation_sym (Permutation_map Row.date Hp))).
    rewrite Hdates. exact Hin.
Qed.

(** X17.  When the sort returns a permutation of the row positions and the
    date normalisation returns one date per entry, no date is lost: every
    normalised date has a row in the returned table. *)
Theorem build_features_keeps_every_date :
  forall (cfg : value) (logs : list RawLogEntry) (dates : list string)
         (feat : list FeatureRecord) (d : string),
    (forall v, Permutation (argsort v) (seq 0 (List.length v))) ->
    to_date_str (map Entry.date logs) = Ok dates ->
    List.length dates = List.length logs ->
    build_features to_date_str argsort cfg logs = Ok feat ->
    In d dates ->
    In d (map Row.date feat).
Proof. exact build_features_dates_kept. Qed.

End FeatureTable.

Lemma seq_argsort_permutation (v : list string) :
  Permutation (seq 0 (List.length v)) (seq 0 (List.length v)).
Proof. apply Permutation_refl. Qed.

Lemma build_features_one_row_per_date_witness :
  exists feat,
    build_features iso_dates nargsort example_cfg resubmitted_log = Ok feat
    /\ NoDup (map Row.date feat).
Proof.
  destruct example_cfg_apps as [Hp Hd].
  destruct (build_features_returns iso_dates nargsort example_cfg resubmitted_log
              (map Entry.date resubmitted_log) eq_refl Hp Hd) as [feat Hfeat].
  exists feat. split; [exact Hfeat |].
  exact (build_features_one_row_per_date iso_dates nargsort example_cfg
           resubmitted_log feat Hfeat).
Defined.

Lemma dhikr_entry_int64 (d : string) :
  Range.entry_int64 (dhikr_entry d 33).
Proof. unfold Range.entry_int64, Range.int64. simpl. repeat split; try lia. constructor. Qed.

Lemma build_features_rows_from_entries_witness :
  exists feat r dates d e,
    Forall Range.entry_int64 [dhikr_entry "2025-01-08" 33]
    /\ build_features iso_dates (fun v => seq 0 (List.length v)) example_cfg
      [dhikr_entry "2025-01-08" 33] = Ok feat
    /\ In r feat
    /\ iso_dates (map Entry.date [dhikr_entry "2025-01-08" 33]) = Ok dates
    /\ In (d, e) (combine dates [dhikr_entry "2025-01-08" 33])
    /\ In e [dhikr_entry "2025-01-08" 33]
    /\ Range.entry_int64 e
    /\ feature_row example_cfg d e = Ok r.
Proof.
  destruct example_cfg_apps as [Hp Hd].
  destruct (feature_row_returns example_cfg "2025-01-08" (dhikr_entry "2025-01-08" 33)
              Hp Hd) as [r Hr].
  assert (Hb : build_features iso_dates (fun v => seq 0 (List.length v)) example_cfg
                 [dhikr_entry "2025-01-08" 33] = Ok [r]).
  { unfold build_features, iso_dates. cbn [map bind combine feature_rows].
    change (Entry.date (dhikr_entry "2025-01-08" 33)) with "2025-01-08".
    rewrite Hr. reflexivity. }
  assert (Hin : In r [r]) by (now left).
  assert (Hfit : Forall Range.entry_int64 [dhikr_entry "2025-01-08" 33])
    by (constructor; [apply dhikr_entry_int64 | constructor]).
  destruct (build_features_rows_from_entries iso_dates (fun v => seq 0 (List.length v))
              example_cfg [dhikr_entry "2025-01-08" 33] [r] r Hfit Hb Hin)
    as (dates & d & e & H1 & H2 & H3 & H4 & H5).
  exists [r], r, dates, d, e.
  split; [exact Hfit |]. split; [exact Hb |]. split; [exact Hin |].
  split; [exact H1 |]. split; [exact H2 |]. split; [exact H3 |].
  split; [exact H4 | exact H5].
Defined.

Lemma build_features_keeps_every_date_witness :
  exists feat,
    (forall v : list string,
        Permutation ((fun v => seq 0 (List.length v)) v) (seq 0 (List.length v)))
    /\ iso_dates (map Entry.date resubmitted_log) = Ok (map Entry.date resubmitted_log)
    /\ List.length (map Entry.date resubmitted_log) = List.length resubmitted_log
    /\ build_features iso_dates (fun v => seq 0 (List.length v)) example_cfg
         resubmitted_log = Ok feat
    /\ In "2025-01-08" (map Entry.date resubmitted_log)
    /\ In "2025-01-08" (map Row.date feat).
Proof.
  destruct example_cfg_apps as [Hp Hd].
  destruct (build_features_returns iso_dates (fun v => seq 0 (List.length v)) example_cfg
              resubmitted_log (map Entry.date resubmitted_log) eq_refl Hp Hd)
    as [feat Hfeat].
  assert (Hlen : List.length (map Entry.date resubmitted_log)
                 = List.length resubmitted_log) by reflexivity.
  assert (Hin : In "2025-01-08" (map Entry.date resubmitted_log))
    by (simpl; tauto).
  exists feat.
  split; [exact seq_argsort_permutation |]. split; [reflexivity |].
  split; [exact Hlen |]. split; [exact Hfeat |]. split; [exact Hin |].
  exact (build_features_keeps_every_date iso_dates (fun v => seq 0 (List.length v))
           example_cfg resubmitted_log (map Entry.date resubmitted_log) feat
           "2025-01-08" seq_argsort_permutation eq_refl Hlen Hfeat Hin).
Defined.

(** X18.  If the index sort behind [sort_values] keeps the rows of one date
    in the order they had, the row the feature builder returns for a date is
    the row of the entry submitted last for that date. *)
Theorem build_features_last_submission_wins :
  forall (to_date_str : list string -> result (list string))
         (argsort : list string -> list nat) (cfg : value)
         (logs : list RawLogEntry) (dates : list string)
         (rows : list FeatureRecord) (d : string),
    order_preserving argsort ->
    logs <> [] ->
    to_date_str (map Entry.date logs) = Ok dates ->
    feature_rows cfg (combine dates logs) = Ok rows ->
    exists feat,
      build_features to_date_str argsort cfg logs = Ok feat
      /\ filter (has_date d) feat = keep_last (filter (has_date d) rows).
Proof.
  intros to_date argsort cfg logs dates rows d Hstable Hne Hdates Hrows.
  exists (drop_duplicates_last (sort_values argsort rows)). split.
  - exact (build_features_unfold to_date argsort cfg logs dates rows Hne Hdates Hrows).
  - rewrite drop_duplicates_last_filter, Hstable. reflexivity.
Qed.

Lemma build_features_last_submission_wins_witness :
  exists r1 r2 feat,
    order_preserving (fun v => seq 0 (List.length v))
    /\ [dhikr_entry "2025-01-08" 33; dhikr_entry "2025-01-08" 100] <> []
    /\ iso_dates (map Entry.date [dhikr_entry "2025-01-08" 33; dhikr_entry "2025-01-08" 100])
       = Ok ["2025-01-08"; "2025-01-08"]
    /\ feature_rows example_cfg
         (combine ["2025-01-08"; "2025-01-08"]
                  [dhikr_entry "2025-01-08" 33; dhikr_entry "2025-01-08" 100])
       = Ok [r1; r2]
    /\ build_features iso_dates (fun v => seq 0 (List.length v)) example_cfg
         [dhikr_entry "2025-01-08" 33; dhikr_entry "2025-01-08" 100] = Ok feat
    /\ filter (has_date "2025-01-08") feat
       = keep_last (filter (has_date "2025-01-08") [r1; r2]).
Proof.
  destruct example_cfg_apps as [Hp Hd].
  destruct (feature_row_returns example_cfg "2025-01-08" (dhikr_entry "2025-01-08" 33)
              Hp Hd) as [r1 Hr1].
  destruct (feature_row_returns example_cfg "2025-01-08" (dhikr_entry "2025-01-08" 100)
              Hp Hd) as [r2 Hr2].
  assert (Hrows : feature_rows example_cfg
                    (combine ["2025-01-08"; "2025-01-08"]
                       [dhikr_entry "2025-01-08" 33; dhikr_entry "2025-01-08" 100])
                  = Ok [r1; r2]).
  { cbn [combine feature_rows]. rewrite Hr1, Hr2. reflexivity. }
  assert (Hne : [dhikr_entry "2025-01-08" 33; dhikr_entry "2025-01-08" 100] <> [])
    by discriminate.
  destruct (build_features_last_submission_wins iso_dates
              (fun v => seq 0 (List.length v)) example_cfg
              [dhikr_entry "2025-01-08" 33; dhikr_entry "2025-01-08" 100]
              ["2025-01-08"; "2025-01-08"] [r1; r2] "2025-01-08"
              order_preserving_identity Hne eq_refl Hrows) as (feat & Hfeat & Hlast).
  exists r1, r2, feat.
  split; [exact order_preserving_identity |]. split; [exact Hne |].
  split; [reflexivity |]. split; [exact Hrows |]. split; [exact Hfeat | exact Hlast].
Defined.

(** ** App minutes: the feature builder and the scorer *)

Lemma split_minutes_loop_acc (pl dl : list string) (m : dict R) (acc : R * R) :
  fold_left
    (fun (acc : R * R) (am : string * R) =>
       (if contains pl (fst am) then fst acc + snd am else fst acc,
        if contains dl (fst am) then snd acc + snd am else snd acc))
    m acc
  = (fst acc + minutes_in pl m, snd acc + minutes_in dl m).
Proof.
  revert acc. unfold minutes_in.
  induction m as [| [a x] m IH]; intros [p d]; simpl.
  - rewrite sum_nil. f_equal; lra.
  - rewrite IH. simpl.
    destruct (contains pl a), (contains dl a); simpl; rewrite ?sum_cons; f_equal; lra.
Qed.

Lemma split_minutes_loop_totals :
  forall (prod_list dist_list : list string) (m : dict R),
    split_minutes_loop prod_list dist_list m
    = (minutes_in prod_list m, minutes_in dist_list m).
Proof.
  intros pl dl m. unfold split_minutes_loop.
  rewrite split_minutes_loop_acc. simpl. f_equal; lra.
Qed.


Lemma minutes_in_pair (p d : R) :
  minutes_in ["productive"] [("productive", p); ("distracting", d)] = p
  /\ minutes_in ["distracting"] [("productive", p); ("distracting", d)] = d.
Proof. unfold minutes_in, Py.sum. simpl. split; lra. Qed.



(** ** Screen-time payloads *)

Lemma get_setitem_eq {V : Type} (d : dict V) (k : string) (v : V) :
  get (ScreenPayload.setitem d k v) k = Some v.
Proof.
  induction d as [| [k' v'] d IH]; simpl.
  - rewrite String.eqb_refl. reflexivity.
  - destruct (String.eqb k' k) eqn:E; simpl; rewrite E; [reflexivity | exact IH].
Qed.

Lemma get_setitem_ne {V : Type} (d : dict V) (k k' : string) (v : V) :
  k <> k' -> get (ScreenPayload.setitem d k v) k' = get d k'.
Proof.
  intros Hne. induction d as [| [k1 v1] d IH]; simpl.
  - destruct (String.eqb_spec k k'); [contradiction | reflexivity].
  - destruct (String.eqb_spec k1 k) as [-> | Hk1]; simpl.
    + destruct (String.eqb_spec k k'); [contradiction | reflexivity].
    + destruct (String.eqb k1 k'); [reflexivity | exact IH].
Qed.

Lemma get_setdefault {V : Type} (d : dict V) (k k' : string) (v : V) :
  get_default (ScreenPayload.setdefault d k v) k' v = get_default d k' v.
Proof.
  unfold ScreenPayload.setdefault, get_default.
  destruct (get d k) eqn:E; [reflexivity |].
  destruct (String.eqb_spec k k') as [-> | Hne].
  - rewrite get_setitem_eq, E. reflexivity.
  - rewrite get_setitem_ne by exact Hne. reflexivity.
Qed.

Lemma get_default_setitem_eq {V : Type} (d : dict V) (k : string) (v x : V) :
  get_default (ScreenPayload.setitem d k v) k x = v.
Proof. unfold get_default. rewrite get_setitem_eq. reflexivity. Qed.

Lemma get_default_setitem_ne {V : Type} (d : dict V) (k k' : string) (v x : V) :
  k <> k' -> get_default (ScreenPayload.setitem d k v) k' x = get_default d k' x.
Proof. intros H. unfold get_default. rewrite get_setitem_ne by exact H. reflexivity. Qed.

Lemma add_apps_minutes (day_apps apps : dict R) (app : string) :
  get_default (ScreenPayload.add_apps day_apps apps) app 0
  = get_default day_apps app 0
    + Py.sum (map snd (filter (fun am => String.eqb (fst am) app) apps)).
Proof.
  unfold ScreenPayload.add_apps. revert day_apps.
  induction apps as [| [a m] apps IH]; intros acc; simpl.
  - rewrite sum_nil. lra.
  - rewrite IH.
    destruct (String.eqb_spec a app) as [-> | Hne]; simpl.
    + rewrite get_default_setitem_eq, sum_cons. simpl. lra.
    + rewrite get_default_setitem_ne by exact Hne. lra.
Qed.

Lemma add_payload_minutes (per_day : dict (dict R)) (p : ScreenPayload.Payload)
    (day app : string) :
  minutes_of (ScreenPayload.add_payload per_day p) day app
  = minutes_of per_day day app + payload_minutes day app p.
Proof.
  unfold ScreenPayload.add_payload, payload_minutes, minutes_of.
  destruct (ScreenPayload.date p) as [d0 |]; [| lra].
  destruct (String.eqb_spec d0 "") as [-> | Hd0].
  - rewrite andb_false_r. lra.
  - rewrite andb_true_r. cbv zeta.
    destruct (String.eqb_spec d0 day) as [-> | Hne].
    + rewrite get_default_setitem_eq.
      rewrite add_apps_minutes, get_setdefault. reflexivity.
    + rewrite get_default_setitem_ne by exact Hne.
      rewrite get_setdefault. lra.
Qed.

(** X21.  [parse_screen_time_payload] merges the payloads per day and app:
    the minutes recorded for an app on a day are the sum of the minutes the
    payloads of that day report for it; payloads without a date, or with an
    empty one, add nothing. *)
Theorem parse_screen_time_payload_sums :
  forall (payloads : list ScreenPayload.Payload) (day app : string),
    minutes_of (ScreenPayload.parse_screen_time_payload payloads) day app
    = Py.sum (map (payload_minutes day app) payloads).
Proof.
  intros payloads day app. unfold ScreenPayload.parse_screen_time_payload.
  assert (H : forall per_day,
             minutes_of (fold_left ScreenPayload.add_payload payloads per_day) day app
             = minutes_of per_day day app
               + Py.sum (map (payload_minutes day app) payloads)).
  { induction payloads as [| p ps IH]; intros per_day; simpl.
    - rewrite sum_nil. lra.
    - rewrite IH, add_payload_minutes, sum_cons. lra. }
  rewrite H. unfold minutes_of at 1. simpl. unfold get_default. simpl. lra.
Qed.

Lemma get_setitem_keys {V : Type} (d : dict V) (k k' : string) (v : V) :
  In k' (map fst (ScreenPayload.setitem d k v)) <-> k' = k \/ In k' (map fst d).
Proof.
  induction d as [| [k1 v1] d IH]; simpl.
  - intuition congruence.
  - destruct (String.eqb_spec k1 k) as [-> | Hne]; simpl; [intuition congruence |].
    rewrite IH. intuition congruence.
Qed.

Lemma get_in_keys {V : Type} (d : dict V) (k : string) :
  In k (map fst d) <-> get d k <> None.
Proof.
  induction d as [| [k1 v1] d IH]; simpl.
  - tauto.
  - destruct (String.eqb_spec k1 k) as [-> | Hne].
    + split; [discriminate | auto].
    + rewrite <- IH. split; [intros [H | H]; [contradiction | exact H] | auto].
Qed.

Lemma add_payload_days (per_day : dict (dict R)) (p : ScreenPayload.Payload)
    (day : string) :
  In day (map fst (ScreenPayload.add_payload per_day p))
  <-> In day (map fst per_day) \/ (day <> "" /\ ScreenPayload.date p = Some day).
Proof.
  unfold ScreenPayload.add_payload.
  destruct (ScreenPayload.date p) as [d0 |].
  - destruct (String.eqb_spec d0 "") as [-> | Hd0].
    + split; [auto |]. intros [H | [Hne H]]; [exact H |]. inversion H. congruence.
    + cbv zeta. rewrite get_setitem_keys. unfold ScreenPayload.setdefault.
      destruct (get per_day d0) eqn:E.
      * assert (Hin : In d0 (map fst per_day)) by (apply get_in_keys; congruence).
        split.
        -- intros [-> | H]; [right; auto | left; exact H].
        -- intros [H | [_ H]]; [right; exact H |]. inversion H; subst. right. exact Hin.
      * rewrite get_setitem_keys. split.
        -- intros [-> | [-> | H]]; [right; auto | right; auto | left; exact H].
        -- intros [H | [_ H]]; [right; right; exact H |]. inversion H. left. reflexivity.
  - split; [auto |]. intros [H | [_ H]]; [exact H | discriminate].
Qed.

(** X22.  The days of the merged mapping are exactly the non-empty dates
    that occur in the payloads: a payload without a date creates no day,
    and a day is present even if its payloads list no app. *)
Theorem parse_screen_time_payload_days :
  forall (payloads : list ScreenPayload.Payload) (day : string),
    In day (map fst (ScreenPayload.parse_screen_time_payload payloads))
    <-> (day <> "" /\ In (Some day) (map ScreenPayload.date payloads)).
Proof.
  intros payloads day. unfold ScreenPayload.parse_screen_time_payload.
  assert (H : forall per_day,
             In day (map fst (fold_left ScreenPayload.add_payload payloads per_day))
             <-> In day (map fst per_day)
                 \/ (day <> "" /\ In (Some day) (map ScreenPayload.date payloads))).
  { induction payloads as [| p ps IH]; intros per_day; simpl.
    - tauto.
    - rewrite IH, add_payload_days. tauto. }
  rewrite H. simpl. tauto.
Qed.

(** ** Validation *)

(** X23.  [validate_prayers] returns exactly the five canonical prayers, in
    their order, whatever keys its argument has; each flag is 1 if the
    argument holds a true value for the prayer and 0 if it holds a false one
    or none. *)
Theorem validate_prayers_canonical :
  forall p : dict bool,
    map fst (Validation.validate_prayers p) = Validation.PRAYERS
    /\ (forall name, In name Validation.PRAYERS ->
          get (Validation.validate_prayers p) name
          = Some (if get_default p name false then 1%Z else 0%Z))
    /\ Forall (fun kv => snd kv = 0%Z \/ snd kv = 1%Z) (Validation.validate_prayers p).
Proof.
  intros p. split; [reflexivity |]. split; [| apply validate_prayers_flags].
  intros name Hin. unfold Validation.validate_prayers, Validation.PRAYERS in *.
  simpl in Hin.
  destruct Hin as [<- | [<- | [<- | [<- | [<- | []]]]]]; reflexivity.
Qed.

Lemma validate_prayers_canonical_witness :
  In "Asr" Validation.PRAYERS
  /\ get (Validation.validate_prayers [("Asr", true); ("Witr", true)]) "Asr"
     = Some (if get_default [("Asr", true); ("Witr", true)] "Asr" false then 1%Z else 0%Z).
Proof.
  assert (H : In "Asr" Validation.PRAYERS) by (simpl; tauto).
  split; [exact H |].
  exact (proj1 (proj2 (validate_prayers_canonical [("Asr", true); ("Witr", true)])) "Asr" H).
Defined.

Lemma clamp_rating_idem (v : Z) :
  Z.max 1 (Z.min 5 (Z.max 1 (Z.min 5 v))) = Z.max 1 (Z.min 5 v).
Proof. lia. Qed.

(** X24.  [clean_outcomes], on ratings that are integers or missing, keeps
    only the four outcome keys, every rating it returns lies in 1..5, and
    cleaning what it returned changes nothing. *)
Theorem clean_outcomes_clamped_idempotent :
  forall o : dict (option Z),
    Forall (fun kv => In (fst kv) ["clarity"; "focus"; "calm"; "productivity"]
                      /\ (1 <= snd kv <= 5)%Z)
           (Validation.clean_outcomes o)
    /\ Validation.clean_outcomes (as_raw_outcomes (Validation.clean_outcomes o))
       = Validation.clean_outcomes o.
Proof.
  intros o. unfold Validation.clean_outcomes. cbn [flat_map].
  destruct (get_default o "clarity" None) as [c |],
           (get_default o "focus" None) as [f |],
           (get_default o "calm" None) as [ca |],
           (get_default o "productivity" None) as [pr |];
    (split;
     [ repeat (constructor; [simpl; split; [tauto | lia] |]); constructor
     | cbn; rewrite ?clamp_rating_idem; reflexivity ]).
Qed.

(** ** The model analyzer and the feature table *)

Lemma map_repeat {A B : Type} (f : A -> B) (x : A) (n : nat) :
  map f (repeat x n) = repeat (f x) n.
Proof. induction n as [| n IH]; simpl; [reflexivity | now rewrite IH]. Qed.

(** X25.  [prepare_features_and_target] always hands the fit the nine
    feature columns, in their fixed order, whatever columns the table has:
    a feature column the table lacks is a column of zeros, and a numeric
    one keeps its values with every NaN replaced by 0. *)
Theorem prepare_features_columns :
  forall (n : nat) (df : DataFrame),
    map fst (prepare_features n df) = feature_columns
    /\ (forall col, In col feature_columns ->
          (get df col = None ->
           get (prepare_features n df) col = Some (NumCol (repeat (Some 0) n)))
          /\ (forall xs, get df col = Some (NumCol xs) ->
               get (prepare_features n df) col
               = Some (NumCol (map (fun x => match x with
                                             | Some _ => x
                                             | None => Some 0
                                             end) xs)))).
Proof.
  intros n df. unfold prepare_features. split.
  - rewrite map_map. simpl. reflexivity.
  - intros col Hin. unfold feature_columns in *. simpl in Hin.
    destruct Hin as [<- | [<- | [<- | [<- | [<- | [<- | [<- | [<- | [<- | []]]]]]]]]];
      (split;
       [ intros Hmiss; cbn [map get String.eqb Ascii.eqb Bool.eqb];
         unfold get_default; rewrite Hmiss; cbn [fillna0];
         rewrite map_repeat; reflexivity
       | intros xs Hxs; cbn [map get String.eqb Ascii.eqb Bool.eqb];
         unfold get_default; rewrite Hxs; reflexivity ]).
Qed.

Lemma prepare_features_columns_witness :
  In "dhikr_reps" feature_columns
  /\ get frame_with_avg_outcome "dhikr_reps" = Some (NumCol [Some 10; Some 20])
  /\ get frame_with_avg_outcome "sleep_hours" = None
  /\ get (prepare_features 2 frame_with_avg_outcome) "sleep_hours"
     = Some (NumCol (repeat (Some 0) 2)).
Proof.
  assert (H : In "sleep_hours" feature_columns) by (simpl; tauto).
  split; [simpl; tauto |]. split; [reflexivity |]. split; [reflexivity |].
  exact (proj1 (proj2 (prepare_features_columns 2 frame_with_avg_outcome)
                  "sleep_hours" H) eq_refl).
Defined.

Section AnalyzerOnFeatureTable.

Variable pearson : list (option R) -> list (option R) -> option R.
Variable train_model : DataFrame -> list R -> result (R * R * list R).

(** X26.  On a table written by the feature builder the analyzer never
    returns a report, however many rows carry an outcome: either the fit
    raises, or the lookup of [avg_outcome] in the correlation matrix does.
    When the fit returns, the exception is [KeyError("avg_outcome")] also
    with 10 rows or more, so the status [ok] is never reached. *)
Theorem train_and_analyze_on_feature_table :
  forall feat : list FeatureRecord,
    ~ returns (train_and_analyze pearson train_model (Some (csv_frame feat)))
    /\ ((forall X y, returns (train_model X y)) ->
        train_and_analyze pearson train_model (Some (csv_frame feat))
        = Raise (KeyError "avg_outcome")).
Proof.
  intros feat. split; [apply train_and_analyze_never_reports |].
  intros Hfit. unfold train_and_analyze.
  destruct (csv_frame_outcomes feat) as (-> & -> & -> & ->).
  cbn [bind]. rewrite kept_rows_count.
  rewrite corr_avg_outcome_missing by apply csv_frame_no_avg_outcome.
  destruct (Nat.ltb _ _); [reflexivity |].
  match goal with
  | |- context [train_model ?X ?y] => destruct (Hfit X y) as [[[mean std] imp] ->]
  end.
  reflexivity.
Qed.

(** X27.  On a table that has a numeric column [avg_outcome] of its own and
    fewer than 10 rows with an outcome, the analyzer returns the report
    [insufficient_data] whose correlations are that column of the
    correlation matrix; the fit is not called. *)
Theorem train_and_analyze_insufficient_data_report :
  forall (df : DataFrame) (clarity focus calm productivity : list (option R))
         (c : dict R),
    outcome_column df "clarity" = Ok clarity ->
    outcome_column df "focus" = Ok focus ->
    outcome_column df "calm" = Ok calm ->
    outcome_column df "productivity" = Ok productivity ->
    (List.length
       (flat_map (fun a : option R => match a with Some x => [x] | None => [] end)
          (map row_mean (zip4 clarity focus calm productivity))) < 10)%nat ->
    get (corr pearson df) "avg_outcome" = Some c ->
    train_and_analyze pearson train_model (Some df) = Ok (InsufficientData c)
    /\ status (InsufficientData c) = "insufficient_data".
Proof.
  intros df cl fo ca pr c Hc Hf Hca Hp Hfew Hcorr. split; [| reflexivity].
  unfold train_and_analyze. rewrite Hc, Hf, Hca, Hp. cbn [bind].
  apply Nat.ltb_lt in Hfew. rewrite Hfew.
  unfold corr_avg_outcome. rewrite Hcorr. reflexivity.
Qed.

End AnalyzerOnFeatureTable.

Lemma train_and_analyze_on_feature_table_witness :
  (forall (X : DataFrame) (y : list R),
      returns ((fun _ _ => Ok (0.5, 0.1, [])) X y : result (R * R * list R)))
  /\ (10 <= outcome_bearing ten_rated_rows)%nat
  /\ train_and_analyze (fun _ _ => None) (fun _ _ => Ok (0.5, 0.1, []))
       (Some (csv_frame ten_rated_rows))
     = Raise (KeyError "avg_outcome").
Proof.
  assert (H : forall (X : DataFrame) (y : list R),
             returns ((fun _ _ => Ok (0.5, 0.1, [])) X y : result (R * R * list R)))
    by (intros; eexists; reflexivity).
  split; [exact H |]. split; [vm_compute; lia |].
  exact (proj2 (train_and_analyze_on_feature_table (fun _ _ => None)
                  (fun _ _ => Ok (0.5, 0.1, [])) ten_rated_rows) H).
Defined.

Lemma train_and_analyze_insufficient_data_report_witness :
  exists c,
    outcome_column frame_with_avg_outcome "clarity" = Ok [Some 4; Some 2]
    /\ outcome_column frame_with_avg_outcome "focus" = Ok [Some 4; None]
    /\ outcome_column frame_with_avg_outcome "calm" = Ok [None; None]
    /\ outcome_column frame_with_avg_outcome "productivity" = Ok [Some 4; Some 2]
    /\ get (corr (fun _ _ => Some 0.5) frame_with_avg_outcome) "avg_outcome" = Some c
    /\ train_and_analyze (fun _ _ => Some 0.5) (fun _ _ => Raise ValueError)
         (Some frame_with_avg_outcome) = Ok (InsufficientData c).
Proof.
  eexists.
  assert (Hlen : (List.length
             (flat_map (fun a : option R => match a with Some x => [x] | None => [] end)
                (map row_mean (zip4 [Some 4; Some 2] [Some 4; None] [None; None]
                                    [Some 4; Some 2])%R)) < 10)%nat)
    by (simpl; lia).
  split; [reflexivity |]. split; [reflexivity |]. split; [reflexivity |].
  split; [reflexivity |]. split; [reflexivity |].
  exact (proj1 (train_and_analyze_insufficient_data_report (fun _ _ => Some 0.5)
                  (fun _ _ => Raise ValueError) frame_with_avg_outcome
                  [Some 4; Some 2] [Some 4; None] [None; None] [Some 4; Some 2] _
                  eq_refl eq_refl eq_refl eq_refl Hlen eq_refl)).
Defined.

(** ** The score table *)

Section ScoreTable.

Variable _to_time : string -> option nat.
Variable to_date_str : list string -> result (list string).
Variable argsort : list string -> list nat.

(** X28.  On the empty log [compute_scores] returns the empty table
    whatever the configuration.  Without a [quran] section in the
    configuration (as with the empty configuration that stands for a missing
    [config.json]), whenever the feature builder returns a table with at
    least one row, [compute_scores] raises [KeyError("quran")]. *)
Theorem compute_scores_without_quran_section :
  forall (d : list (string * value)) (logs : list RawLogEntry)
         (feat : list FeatureRecord),
    compute_scores _to_time to_date_str argsort (VDict d) [] = Ok []
    /\ (get d "quran" = None ->
        build_features to_date_str argsort (VDict d) logs = Ok feat ->
        feat <> [] ->
        compute_scores _to_time to_date_str argsort (VDict d) logs
        = Raise (KeyError "quran")).
Proof.
  intros d logs feat. split; [reflexivity |].
  intros Hq Hfeat Hne.
  unfold compute_scores. rewrite Hfeat. cbn [bind].
  destruct feat as [| r feat']; [congruence |].
  cbn [score_rows]. unfold score_row, calculate_score_components.
  cbn [getitem]. rewrite Hq. reflexivity.
Qed.

End ScoreTable.

Lemma compute_scores_without_quran_section_witness :
  exists feat,
    get ([] : list (string * value)) "quran" = None
    /\ build_features iso_dates (fun v => seq 0 (List.length v)) (VDict [])
         [blank_entry "2025-01-01"] = Ok feat
    /\ feat <> []
    /\ compute_scores (fun _ => None) iso_dates (fun v => seq 0 (List.length v)) (VDict [])
         [blank_entry "2025-01-01"] = Raise (KeyError "quran").
Proof.
  assert (Hp : returns (screen_apps (VDict []) "productive_apps"))
    by (eexists; reflexivity).
  assert (Hd : returns (screen_apps (VDict []) "distracting_apps"))
    by (eexists; reflexivity).
  destruct (feature_row_returns (VDict []) "2025-01-01" (blank_entry "2025-01-01")
              Hp Hd) as [r Hr].
  assert (Hb : build_features iso_dates (fun v => seq 0 (List.length v)) (VDict [])
                 [blank_entry "2025-01-01"] = Ok [r]).
  { unfold build_features, iso_dates. cbn [map bind combine feature_rows].
    change (Entry.date (blank_entry "2025-01-01")) with "2025-01-01".
    rewrite Hr. reflexivity. }
  assert (Hne : [r] <> []) by discriminate.
  exists [r]. split; [reflexivity |]. split; [exact Hb |]. split; [exact Hne |].
  exact (proj2 (compute_scores_without_quran_section (fun _ => None) iso_dates
                  (fun v => seq 0 (List.length v)) [] [blank_entry "2025-01-01"] [r])
           eq_refl Hb Hne).
Defined.
